(** * Balance reconciliation of [scripts/test-mexc-balance.py]

    A shallow embedding of the script's balance, position, trade and
    funding probes and of the summary that [main] builds from them,
    followed by the properties of the reconciliation logic.

    Conventions of the embedding.
    - A Python [float] is a binary64 value: Rocq's primitive [float], with
      [+], [-], [abs], [<] as [PrimFloat.add], [sub], [abs], [ltb].
    - Raw exchange data are Python values ([pyval]); a [dict] is an
      association list in insertion order, which is the order [.items()]
      yields.
    - An exception is a value of [exn]; code that may raise lives in [res],
      code that also prints or reads the exchange's mode lives in [M].
    - Printed text is kept as structured [line]s that carry the numbers
      printed; the characters produced by a format specification are not
      modelled, only whether applying it raises.
    - The integer literal [0] that the error paths put in their result
      dictionaries is taken as the float [0.0]: the arithmetic, the
      comparisons and the formatting applied to it afterwards do not
      distinguish the two. *)

From Stdlib Require Import ZArith List String Ascii Bool Lia Floats.
From Stdlib Require Import Permutation Sorted.
Import ListNotations.

Local Open Scope string_scope.
Local Open Scope list_scope.

(* ================================================================== *)
(** * The fragment of Python the script relies on *)
(* ================================================================== *)

Module Py.

(** Exceptions, all of them subclasses of [Exception]. [ExchangeError]
    stands for whatever the connectivity layer raises, by class name. *)
Inductive exn : Type :=
| TypeError
| ValueError
| AttributeError
| OverflowError
| ExchangeError (name : string).

Inductive res (A : Type) : Type :=
| Ok (a : A)
| Raise (e : exn).
Arguments Ok {A} a.
Arguments Raise {A} e.

Definition rbind {A B} (r : res A) (k : A -> res B) : res B :=
  match r with
  | Ok a => k a
  | Raise e => Raise e
  end.

Definition is_ok {A} (r : res A) : bool :=
  match r with Ok _ => true | Raise _ => false end.

(** The text stored under ['error']. The script stores [str(e)], the
    message of the exception; messages are not modelled, and the name of
    the exception's class stands in their place. *)
Definition exn_str (e : exn) : string :=
  match e with
  | TypeError => "TypeError"
  | ValueError => "ValueError"
  | AttributeError => "AttributeError"
  | OverflowError => "OverflowError"
  | ExchangeError name => name
  end.

#[local] Set Warnings "-register-all".

Inductive pyval : Type :=
| VNone
| VBool (b : bool)
| VInt (n : Z)
| VFloat (x : float)
| VStr (s : string)
| VList (l : list pyval)
| VDict (d : list (string * pyval)).

Definition dict : Type := list (string * pyval).

(** [d.get(k, default)] *)
Fixpoint dict_get (d : dict) (k : string) (default : pyval) : pyval :=
  match d with
  | [] => default
  | (k', v) :: d' => if String.eqb k k' then v else dict_get d' k default
  end.

(** [bool(v)] *)
Definition truthy (v : pyval) : bool :=
  match v with
  | VNone => false
  | VBool b => b
  | VInt n => negb (n =? 0)%Z
  | VFloat x => negb (x =? 0)%float
  | VStr s => negb (String.eqb s "")
  | VList l => match l with [] => false | _ => true end
  | VDict d => match d with [] => false | _ => true end
  end.

(** [a or b] *)
Definition py_or (a b : pyval) : pyval := if truthy a then a else b.

(** [float(n)] for an [int]: the nearest binary64 value, ties to even,
    [OverflowError] when that is beyond the largest finite float. *)
Definition float_of_int (n : Z) : res float :=
  let x := SF2Prim (binary_normalize prec emax n 0 false) in
  if is_infinity x then Raise OverflowError else Ok x.

(** [k in keys] for a list of string literals. *)
Definition str_in (k : string) (keys : list string) : bool :=
  existsb (String.eqb k) keys.

Section Builtins.

(** Python's [float()] applied to a [str]: the float the string
    denotes, or nothing when [float()] raises [ValueError]. The
    grammar of float literals belongs to the interpreter, not to the
    script, so it is a parameter here. *)
Variable float_of_str : string -> option float.

(** [float(v)] *)
Definition py_float (v : pyval) : res float :=
  match v with
  | VNone => Raise TypeError
  | VBool b => Ok (if b then 1 else 0)%float
  | VInt n => float_of_int n
  | VFloat x => Ok x
  | VStr s => match float_of_str s with
              | Some x => Ok x
              | None => Raise ValueError
              end
  | VList _ => Raise TypeError
  | VDict _ => Raise TypeError
  end.

(** [float(d.get(k, 0) or 0)], the coercion the script applies to
    every numeric field. *)
Definition num_field (d : dict) (k : string) : res float :=
  py_float (py_or (dict_get d k (VInt 0)) (VInt 0)).

(** [v.get(k, 0)] followed by the same coercion, for a [v] that need
    not be a dict: [AttributeError] when it has no [get]. *)
Definition attr_num_field (v : pyval) (k : string) : res float :=
  match v with
  | VDict d => num_field d k
  | _ => Raise AttributeError
  end.

End Builtins.

(** The readings of the strings that occur in the examples of this
    file; any other string of the examples is one [float()] rejects. *)
Definition sample_float_of_str (s : string) : option float :=
  if String.eqb s "2.5" then Some 2.5%float
  else if String.eqb s "0" then Some 0%float
  else None.

(** Iterating over a value ([for p in v], [list.extend(v)]): a list
    yields its elements, a dict its keys, a str its characters; other
    values are not iterable. *)
Definition py_iter (v : pyval) : res (list pyval) :=
  match v with
  | VList l => Ok l
  | VDict d => Ok (map (fun kv => VStr (fst kv)) d)
  | VStr s => Ok (map (fun c => VStr (String c EmptyString)) (list_ascii_of_string s))
  | VNone | VBool _ | VInt _ | VFloat _ => Raise TypeError
  end.

(** A format specification, as far as raising goes: whether it carries
    a sign option ([+]) and whether it carries a numeric presentation
    (grouping, precision or type [f]). The specifications of the script
    all carry an alignment and a width, so none is empty. *)
Record fspec : Type := { f_sign : bool; f_numeric : bool }.

Definition aligned : fspec := {| f_sign := false; f_numeric := false |}.
Definition aligned_signed : fspec := {| f_sign := true; f_numeric := false |}.

(** [format(s, spec)] for a [str] [s]: a sign option or a numeric
    presentation is refused with [ValueError], whatever the text. *)
Definition format_str (spec : fspec) : res unit :=
  if f_sign spec || f_numeric spec then Raise ValueError else Ok tt.

(** [format(v, spec)] for a non-empty [spec]: numbers take every
    specification, [None], lists and dicts refuse all of them. *)
Definition py_format (v : pyval) (spec : fspec) : res unit :=
  match v with
  | VStr _ => format_str spec
  | VBool _ | VInt _ | VFloat _ => Ok tt
  | VNone | VList _ | VDict _ => Raise TypeError
  end.

End Py.
Import Py.

Notation "x <- r ;; k" := (rbind r (fun x => k))
  (at level 61, r at next level, right associativity).

(* ================================================================== *)
(** * Printing, the exchange client and the monad of the probes *)
(* ================================================================== *)

(** What the script prints, one constructor per kind of line; the
    numbers are kept, their rendering by [format_currency] is not. *)
Inductive line : Type :=
| Header (title : string)
| Note (text : string)
| Count (label : string) (n : nat)
| Amount (label : string) (value : float)
| AssetRow (currency : string) (total free used : float)
| PositionRow (symbol side : pyval) (contracts entry mark pnl : float)
| SymbolTrades (symbol : string) (n : nat)
| FundingFound (balance_type : string) (total : float)
| Failure (label : string) (e : exn).

(** The state a probe can touch: [exchange.options['defaultType']] and
    the text printed so far (oldest line first). *)
Record state : Type := { default_type : string; out : list line }.

(** The exchange client, the external collaborator. Every fetch reads
    the ambient [defaultType], so that is its first argument; a fetch
    either returns the decoded response or raises.
    [fetch_balance dt ty]: [exchange.fetch_balance({'type': ty})], or
    [exchange.fetch_balance()] when [ty] is [None].
    [fetch_closed_orders dt since]: each order is given by what
    [order.get('symbol')] is there, a symbol or [None].
    [load_markets]: the values of [exchange.markets] after
    [exchange.load_markets()]. *)
Record exchange : Type := {
  fetch_balance : string -> option string -> res pyval;
  fetch_positions : string -> res pyval;
  fetch_closed_orders : string -> Z -> res (list (option string));
  fetch_my_trades : string -> string -> Z -> res pyval;
  load_markets : string -> res (list dict)
}.

Definition M (A : Type) : Type := state -> res A * state.

Definition ret {A} (a : A) : M A := fun s => (Ok a, s).

Definition bind {A B} (m : M A) (k : A -> M B) : M B :=
  fun s => match m s with
           | (Ok a, s') => k a s'
           | (Raise e, s') => (Raise e, s')
           end.

Definition lift {A} (r : res A) : M A := fun s => (r, s).

Definition print (l : line) : M unit :=
  fun s => (Ok tt, {| default_type := default_type s; out := out s ++ [l] |}).

(** [exchange.options['defaultType'] = ty] *)
Definition set_default_type (ty : string) : M unit :=
  fun s => (Ok tt, {| default_type := ty; out := out s |}).

Definition get_default_type : M string :=
  fun s => (Ok (default_type s), s).

(** [try: body  except Exception as e: handler(e)] *)
Definition try_except {A} (body : M A) (handler : exn -> M A) : M A :=
  fun s => match body s with
           | (Ok a, s') => (Ok a, s')
           | (Raise e, s') => handler e s'
           end.

Notation "x <~ m ;; k" := (bind m (fun x => k))
  (at level 61, m at next level, right associativity).
Notation "m ;;; k" := (bind m (fun _ => k))
  (at level 61, right associativity).

(** [print_section(title)] *)
Definition print_section (title : string) : M unit := print (Header title).

(** [for x in xs: body(x)] *)
Fixpoint for_each {A} (xs : list A) (body : A -> M unit) : M unit :=
  match xs with
  | [] => ret tt
  | x :: xs' => body x ;;; for_each xs' body
  end.

(* ================================================================== *)
(** * The probes of the script *)
(* ================================================================== *)

(** One entry of [assets_with_balance]. *)
Record asset : Type := {
  currency : string;
  total : float;
  free : float;
  used : float
}.

(** The dictionaries the probes return, one constructor per shape. *)
Inductive spot_result : Type :=
| SpotOk (usdt_equiv : float) (assets : list asset) (raw : pyval)
| SpotErr (error : string).

Inductive swap_result : Type :=
| SwapOk (usdt_total usdt_free usdc_total total : float) (raw : pyval)
| SwapErr (error : string).

Inductive positions_result : Type :=
| PosOk (positions : list dict) (unrealized_pnl notional : float)
| PosErr (error : string).

Inductive funding_result : Type :=
| FundFound (type : string) (total : float)
| FundNone.

Record trades_result : Type := {
  trades : nat;
  volume : float;
  fees : float
}.

(** [spot_result.get('usdt_equiv', 0)] and [spot_result.get('assets', [])] *)
Definition spot_usdt_equiv (r : spot_result) : float :=
  match r with SpotOk usdt_equiv _ _ => usdt_equiv | SpotErr _ => 0%float end.

Definition spot_assets (r : spot_result) : list asset :=
  match r with SpotOk _ assets _ => assets | SpotErr _ => [] end.

(** [swap_result.get('total', 0)] *)
Definition swap_total (r : swap_result) : float :=
  match r with SwapOk _ _ _ total _ => total | SwapErr _ => 0%float end.

(** [positions_result.get('unrealized_pnl', 0)] and [['positions']] *)
Definition positions_unrealized_pnl (r : positions_result) : float :=
  match r with PosOk _ unrealized_pnl _ => unrealized_pnl | PosErr _ => 0%float end.

Definition positions_open (r : positions_result) : list dict :=
  match r with PosOk positions _ _ => positions | PosErr _ => [] end.

(** [funding_result.get('total', 0)] *)
Definition funding_total (r : funding_result) : float :=
  match r with FundFound _ total => total | FundNone => 0%float end.

(** The keys of a balance response that are not currencies. *)
Definition reserved_keys : list string :=
  ["info"; "free"; "used"; "total"; "debt"; "timestamp"; "datetime"].

(** The currencies counted at face value. *)
Definition stablecoins : list string := ["USDT"; "USDC"; "USD"].

(** [sorted(assets, key=lambda x: x['total'], reverse=True)]: a stable
    sort, so assets of equal total stay in their order of arrival. The
    keys sorted by the script are all strictly positive, hence ordered
    by [<]. *)
Fixpoint insert_by_total (a : asset) (l : list asset) : list asset :=
  match l with
  | [] => [a]
  | b :: l' => if (total a <? total b)%float
               then b :: insert_by_total a l'
               else a :: b :: l'
  end.

Definition sorted_by_total_desc (l : list asset) : list asset :=
  fold_right insert_by_total [] l.

(** The [+=] accumulation of a loop over [xs], from 0: a left fold. *)
Definition float_sum (xs : list float) : float :=
  fold_left PrimFloat.add xs 0%float.

(** The summary's test for a shared pool (line 342). *)
Definition pools_are_shared (spot_value swap_value : float) : bool :=
  (abs (spot_value - swap_value) <? 1)%float && (0 <? spot_value)%float.

Section Script.

Variable float_of_str : string -> option float.

(** The order in which a [set] of strings yields its elements, given
    them in order of insertion (it depends on the strings' hashes). *)
Variable set_iter : list string -> list string.

(** The built-in [sum] on floats. Up to CPython 3.11 it adds from left to
    right ([float_sum]); from 3.12 on it uses a compensated summation. *)
Variable py_sum : list float -> float.

Local Abbreviation num_field := (num_field float_of_str).
Local Abbreviation attr_num_field := (attr_num_field float_of_str).
Local Abbreviation py_float := (py_float float_of_str).

(** ** [test_spot_balance] *)

(** The loop over [balance.items()], with the two accumulators. *)
Fixpoint spot_loop (items : dict) (total_usdt_equiv : float)
         (assets_with_balance : list asset) : res (float * list asset) :=
  match items with
  | [] => Ok (total_usdt_equiv, assets_with_balance)
  | (currency, data) :: rest =>
      if str_in currency reserved_keys
      then spot_loop rest total_usdt_equiv assets_with_balance
      else
        match data with
        | VDict d =>
            total <- num_field d "total" ;;
            free <- num_field d "free" ;;
            used <- num_field d "used" ;;
            if (0 <? total)%float then
              spot_loop rest
                (if str_in currency stablecoins
                 then (total_usdt_equiv + total)%float
                 else total_usdt_equiv)
                (assets_with_balance ++
                   [{| currency := currency; total := total;
                       free := free; used := used |}])
            else spot_loop rest total_usdt_equiv assets_with_balance
        | _ => spot_loop rest total_usdt_equiv assets_with_balance
        end
  end.

(** [balance.items()], [balance.get(...)]: only a dict has them. *)
Definition as_dict (balance : pyval) : res dict :=
  match balance with
  | VDict d => Ok d
  | _ => Raise AttributeError
  end.

Definition print_asset (a : asset) : M unit :=
  print (AssetRow (currency a) (total a) (free a) (used a)).

(** The body of the [try] and the [except] clause. *)
Definition spot_try (ex : exchange) : M spot_result :=
  dt <~ get_default_type ;;
  balance <~ lift (fetch_balance ex dt (Some "spot")) ;;
  items <~ lift (as_dict balance) ;;
  acc <~ lift (spot_loop items 0%float []) ;;
  let '(total_usdt_equiv, assets_with_balance) := acc in
  print (Count "Assets with balance" (List.length assets_with_balance)) ;;;
  for_each (sorted_by_total_desc assets_with_balance) print_asset ;;;
  print (Amount "SPOT Stablecoin Total" total_usdt_equiv) ;;;
  ret (SpotOk total_usdt_equiv assets_with_balance balance).

Definition spot_except (e : exn) : M spot_result :=
  print (Failure "Error fetching spot balance" e) ;;;
  ret (SpotErr (exn_str e)).

Definition test_spot_balance (ex : exchange) : M spot_result :=
  print_section "SPOT BALANCE" ;;;
  set_default_type "spot" ;;;
  try_except (spot_try ex) spot_except.

(** ** [test_swap_balance] *)

Definition print_if_positive (label : string) (x : float) : M unit :=
  if (0 <? x)%float then print (Amount label x) else ret tt.

Definition swap_try (ex : exchange) : M swap_result :=
  dt <~ get_default_type ;;
  balance <~ lift (fetch_balance ex dt None) ;;
  b <~ lift (as_dict balance) ;;
  let usdt := dict_get b "USDT" (VDict []) in
  let usdc := dict_get b "USDC" (VDict []) in
  let usd := dict_get b "USD" (VDict []) in
  usdt_total <~ lift (attr_num_field usdt "total") ;;
  usdt_free <~ lift (attr_num_field usdt "free") ;;
  usdt_used <~ lift (attr_num_field usdt "used") ;;
  usdc_total <~ lift (attr_num_field usdc "total") ;;
  usd_total <~ lift (attr_num_field usd "total") ;;
  print (Amount "USDT Total" usdt_total) ;;;
  print (Amount "USDT Free" usdt_free) ;;;
  print (Amount "USDT Used" usdt_used) ;;;
  print_if_positive "USDC Balance" usdc_total ;;;
  print_if_positive "USD Balance" usd_total ;;;
  let total := (usdt_total + usdc_total + usd_total)%float in
  print (Amount "SWAP Total Equity" total) ;;;
  ret (SwapOk usdt_total usdt_free usdc_total total balance).

Definition swap_except (e : exn) : M swap_result :=
  print (Failure "Error fetching swap balance" e) ;;;
  ret (SwapErr (exn_str e)).

Definition test_swap_balance (ex : exchange) : M swap_result :=
  print_section "SWAP/FUTURES BALANCE" ;;;
  set_default_type "swap" ;;;
  try_except (swap_try ex) swap_except.

(** ** [test_positions] *)

(** The condition of the comprehension,
    [p.get('contracts', 0) and float(p['contracts']) > 0]. *)
Definition is_open (p : pyval) : res bool :=
  match p with
  | VDict d =>
      let c := dict_get d "contracts" (VInt 0) in
      if truthy c
      then x <- py_float c ;; Ok (0 <? x)%float
      else Ok false
  | _ => Raise AttributeError
  end.

(** [[p for p in positions if ...]]; a retained [p] is a dict. *)
Fixpoint open_positions_of (ps : list pyval) : res (list dict) :=
  match ps with
  | [] => Ok []
  | p :: ps' =>
      keep <- is_open p ;;
      rest <- open_positions_of ps' ;;
      Ok (match p with
          | VDict d => if keep then d :: rest else rest
          | _ => rest
          end)
  end.

(** The loop over [open_positions], with the two running totals. *)
Fixpoint positions_loop (ps : list dict)
         (total_unrealized_pnl total_notional : float) : M (float * float) :=
  match ps with
  | [] => ret (total_unrealized_pnl, total_notional)
  | pos :: ps' =>
      let symbol := dict_get pos "symbol" (VStr "Unknown") in
      let side := dict_get pos "side" (VStr "Unknown") in
      contracts <~ lift (num_field pos "contracts") ;;
      entry <~ lift (num_field pos "entryPrice") ;;
      mark <~ lift (num_field pos "markPrice") ;;
      pnl <~ lift (num_field pos "unrealizedPnl") ;;
      notional <~ lift (num_field pos "notional") ;;
      lift (py_format symbol aligned) ;;;
      lift (py_format side aligned) ;;;
      print (PositionRow symbol side contracts entry mark pnl) ;;;
      positions_loop ps' (total_unrealized_pnl + pnl)%float
                     (total_notional + abs notional)%float
  end.

Definition positions_try (ex : exchange) : M positions_result :=
  dt <~ get_default_type ;;
  positions <~ lift (fetch_positions ex dt) ;;
  ps <~ lift (py_iter positions) ;;
  open_positions <~ lift (open_positions_of ps) ;;
  totals <~ match open_positions with
            | [] => print (Note "No open positions") ;;;
                    ret (0%float, 0%float)
            | _ => print (Count "Open positions" (List.length open_positions)) ;;;
                   positions_loop open_positions 0%float 0%float
            end ;;
  let '(total_unrealized_pnl, total_notional) := totals in
  print (Amount "Total Unrealized PnL" total_unrealized_pnl) ;;;
  print (Amount "Total Notional Value" total_notional) ;;;
  ret (PosOk open_positions total_unrealized_pnl total_notional).

Definition positions_except (e : exn) : M positions_result :=
  print (Failure "Error fetching positions" e) ;;;
  ret (PosErr (exn_str e)).

Definition test_positions (ex : exchange) : M positions_result :=
  print_section "OPEN POSITIONS" ;;;
  set_default_type "swap" ;;;
  try_except (positions_try ex) positions_except.

(** ** [test_market_types] *)

(** [s.add(x)] on a set kept in order of insertion. *)
Definition set_add (x : string) (s : list string) : list string :=
  if str_in x s then s else s ++ [x].

(** The capability flags read off a market, with the tag each adds. *)
Definition market_flags : list (string * string) :=
  [("spot", "spot"); ("swap", "swap"); ("future", "future");
   ("option", "options"); ("margin", "margin")].

Definition add_market (market_types : list string) (market : dict) : list string :=
  fold_left
    (fun acc flag => if truthy (dict_get market (fst flag) VNone)
                     then set_add (snd flag) acc else acc)
    market_flags market_types.

Definition test_market_types (ex : exchange) : M (list string) :=
  print_section "MARKET TYPES DETECTION" ;;;
  try_except
    (dt <~ get_default_type ;;
     markets <~ lift (load_markets ex dt) ;;
     let types_list := set_iter (fold_left add_market markets []) in
     print (Count "Detected market types" (List.length types_list)) ;;;
     ret types_list)
    (fun e =>
       print (Failure "Error detecting market types" e) ;;;
       ret []).

(** ** [test_recent_trades] *)

(** [float(t.get('cost', 0) or 0)] *)
Definition trade_cost (t : pyval) : res float := attr_num_field t "cost".

(** [float(t.get('fee', {}).get('cost', 0) or 0)] *)
Definition trade_fee (t : pyval) : res float :=
  d <- as_dict t ;;
  attr_num_field (dict_get d "fee" (VDict [])) "cost".

(** The terms [f(t) for t in ts] that [sum] consumes: they are computed
    one by one, so the first that raises ends the sum. *)
Fixpoint terms (f : pyval -> res float) (ts : list pyval) : res (list float) :=
  match ts with
  | [] => Ok []
  | t :: ts' => x <- f t ;; xs <- terms f ts' ;; Ok (x :: xs)
  end.

(** [sum(f(t) for t in ts)] *)
Definition sum_over (f : pyval -> res float) (ts : list pyval) : res float :=
  xs <- terms f ts ;; Ok (py_sum xs).

(** The symbols of the closed orders, as a set. *)
Definition symbols_of (closed_orders : list (option string)) : list string :=
  fold_left
    (fun acc order => match order with
                      | Some symbol => if String.eqb symbol "" then acc
                                       else set_add symbol acc
                      | None => acc
                      end)
    closed_orders [].

(** The loop over [symbols_to_check]; [all_trades] is the list being
    extended. A symbol whose fetch (or whose [extend]) raises leaves it
    as it was. *)
Fixpoint trades_loop (ex : exchange) (since : Z) (symbols : list string)
         (all_trades : list pyval) : M (list pyval) :=
  match symbols with
  | [] => ret all_trades
  | symbol :: rest =>
      all_trades' <~
        try_except
          (dt <~ get_default_type ;;
           trades <~ lift (fetch_my_trades ex dt symbol since) ;;
           fills <~ lift (py_iter trades) ;;
           (if truthy trades
            then print (SymbolTrades symbol (List.length fills))
            else ret tt) ;;;
           ret (all_trades ++ fills))
          (fun _ => ret all_trades) ;;
      trades_loop ex since rest all_trades'
  end.

(** [now] is the current time in milliseconds since the epoch. *)
Definition test_recent_trades (ex : exchange) (now : Z) (days : Z) : M trades_result :=
  print_section "RECENT TRADES" ;;;
  let since := (now - days * 86400000)%Z in
  symbols_to_check <~
    try_except
      (set_default_type "swap" ;;;
       dt <~ get_default_type ;;
       closed_orders <~ lift (fetch_closed_orders ex dt since) ;;
       let symbols := symbols_of closed_orders in
       print (Count "symbols from closed orders" (List.length symbols)) ;;;
       ret symbols)
      (fun e =>
         print (Failure "Could not fetch closed orders" e) ;;;
         ret []) ;;
  set_default_type "swap" ;;;
  all_trades <~ trades_loop ex since (set_iter symbols_to_check) [] ;;
  total_volume <~ lift (sum_over trade_cost all_trades) ;;
  total_fees <~ lift (sum_over trade_fee all_trades) ;;
  print (Count "Total trades" (List.length all_trades)) ;;;
  print (Amount "Total volume" total_volume) ;;;
  print (Amount "Total fees" total_fees) ;;;
  ret {| trades := List.length all_trades;
         volume := total_volume;
         fees := total_fees |}.

(** ** [test_funding_balance] *)

Definition funding_types : list string := ["funding"; "earn"; "savings"].

(** One turn of the loop: the USDT total under [balance_type] when it is
    strictly positive, nothing when it is not or when anything raised. *)
Definition probe_funding (ex : exchange) (balance_type : string) : M (option float) :=
  try_except
    (dt <~ get_default_type ;;
     balance <~ lift (fetch_balance ex dt (Some balance_type)) ;;
     b <~ lift (as_dict balance) ;;
     let usdt := dict_get b "USDT" (VDict []) in
     total <~ lift (attr_num_field usdt "total") ;;
     if (0 <? total)%float
     then print (FundingFound balance_type total) ;;; ret (Some total)
     else ret None)
    (fun e => print (Failure balance_type e) ;;; ret None).

Fixpoint funding_loop (ex : exchange) (types : list string) : M funding_result :=
  match types with
  | [] => print (Note "No funding/earn balance found") ;;; ret FundNone
  | balance_type :: rest =>
      found <~ probe_funding ex balance_type ;;
      match found with
      | Some total => ret (FundFound balance_type total)
      | None => funding_loop ex rest
      end
  end.

Definition test_funding_balance (ex : exchange) : M funding_result :=
  print_section "FUNDING/EARN BALANCE" ;;;
  funding_loop ex funding_types.

(** ** [main] *)

(** Lines 342-350: the shared-pool test and the total that is shown. *)
Definition report_total (spot_value swap_value funding_value : float) : M unit :=
  if pools_are_shared spot_value swap_value then
    print (Note "WARNING: Spot and Swap balances are nearly identical!") ;;;
    print (Amount "ESTIMATED TOTAL" swap_value)
  else
    let total := (spot_value + swap_value + funding_value)%float in
    print (Amount "TOTAL EQUITY" total).

(** Lines 328-350. Each amount is first rendered by [format_currency],
    which gives a [str], and that [str] is then formatted with the
    field's own specification: [>15] for the three subtotals, [>+15]
    for the unrealized PnL. *)
Definition summary (spot_result : spot_result) (swap_result : swap_result)
           (positions_result : positions_result)
           (funding_result : funding_result) : M unit :=
  print_section "SUMMARY - TOTAL ACCOUNT VALUE" ;;;
  let spot_value := spot_usdt_equiv spot_result in
  let swap_value := swap_total swap_result in
  let funding_value := funding_total funding_result in
  let unrealized_pnl := positions_unrealized_pnl positions_result in
  lift (format_str aligned) ;;;
  print (Amount "Spot Stablecoins" spot_value) ;;;
  lift (format_str aligned) ;;;
  print (Amount "Swap/Futures Equity" swap_value) ;;;
  lift (format_str aligned) ;;;
  print (Amount "Funding/Earn" funding_value) ;;;
  lift (format_str aligned_signed) ;;;
  print (Amount "Unrealized PnL" unrealized_pnl) ;;;
  report_total spot_value swap_value funding_value.

(** Lines 352-373. *)
Definition diagnosis (market_types : list string) (spot_result : spot_result) : M unit :=
  print_section "INTEGRATION DIAGNOSIS" ;;;
  print (Count "Detected market types" (List.length market_types)) ;;;
  print (Count "Filtered types"
           (List.length (filter (fun t => negb (str_in t ["spot"; "future"; "margin"]))
                           market_types))) ;;;
  print (Count "Spot non-stablecoin assets found"
           (List.length (filter (fun a => negb (str_in (currency a) stablecoins))
                           (spot_assets spot_result)))).

(** The credentials are taken as configured, so that
    [create_mexc_client] returns the client [ex]. *)
Definition main (ex : exchange) (now : Z) : M unit :=
  print (Header "MEXC BALANCE TEST SCRIPT") ;;;
  print (Note "Connected to MEXC") ;;;
  market_types <~ test_market_types ex ;;
  spot_result <~ test_spot_balance ex ;;
  swap_result <~ test_swap_balance ex ;;
  positions_result <~ test_positions ex ;;
  funding_result <~ test_funding_balance ex ;;
  trades_result <~ test_recent_trades ex now 7 ;;
  summary spot_result swap_result positions_result funding_result ;;;
  diagnosis market_types spot_result.

End Script.

(** The state in which [main] starts: ccxt's client for this exchange
    has ['spot'] as its [defaultType], and nothing is printed yet. *)
Definition initial_state : state := {| default_type := "spot"; out := [] |}.

(** The last amount among printed lines. *)
Definition last_amount (ls : list line) : option float :=
  fold_left (fun acc l => match l with Amount _ value => Some value | _ => acc end)
            ls None.

(** The total the summary shows for three subtotals: what lines 342-350
    print last. *)
Definition total_equity (spot_value swap_value funding_value : float) : option float :=
  last_amount (out (snd (report_total spot_value swap_value funding_value initial_state))).

(** The asset rows among printed lines, in the order printed. *)
Definition asset_rows (ls : list line) : list asset :=
  flat_map (fun l => match l with
                     | AssetRow currency total free used =>
                         [{| currency := currency; total := total;
                             free := free; used := used |}]
                     | _ => []
                     end) ls.

(* ================================================================== *)
(** * The order of binary64 values *)
(* ================================================================== *)

(** The comparisons of primitive floats are specified by [SFcompare] on
    their decoded form, which orders the values that are not NaN like
    the triples (class, exponent, mantissa) below, lexicographically. *)
Module FloatOrder.

Definition rank (x : spec_float) : Z * Z * Z :=
  match x with
  | S754_nan => (0, 0, 0)
  | S754_infinity true => (-2, 0, 0)
  | S754_finite true m e => (-1, - e, - Zpos m)
  | S754_zero _ => (0, 0, 0)
  | S754_finite false m e => (1, e, Zpos m)
  | S754_infinity false => (2, 0, 0)
  end%Z.

Definition lex_compare (a b : Z * Z * Z) : comparison :=
  let '(a1, a2, a3) := a in
  let '(b1, b2, b3) := b in
  match (a1 ?= b1)%Z with
  | Eq => match (a2 ?= b2)%Z with
          | Eq => (a3 ?= b3)%Z
          | c => c
          end
  | c => c
  end.

Definition is_nan_sf (x : spec_float) : bool :=
  match x with S754_nan => true | _ => false end.

Lemma SFcompare_rank x y :
  SFcompare x y =
  if is_nan_sf x || is_nan_sf y then None
  else Some (lex_compare (rank x) (rank y)).
Proof.
  destruct x as [sx|sx| |sx mx ex], y as [sy|sy| |sy my ey];
    try destruct sx; try destruct sy; simpl; try reflexivity.
  rewrite Z.compare_opp, (Z.compare_antisym ex ey).
  destruct (ex ?= ey)%Z; reflexivity.
Qed.

Definition lex_le (a b : Z * Z * Z) : Prop :=
  let '(a1, a2, a3) := a in
  let '(b1, b2, b3) := b in
  (a1 < b1 \/ (a1 = b1 /\ (a2 < b2 \/ (a2 = b2 /\ a3 <= b3))))%Z.

Definition lex_lt (a b : Z * Z * Z) : Prop :=
  let '(a1, a2, a3) := a in
  let '(b1, b2, b3) := b in
  (a1 < b1 \/ (a1 = b1 /\ (a2 < b2 \/ (a2 = b2 /\ a3 < b3))))%Z.

Definition lex_eq (a b : Z * Z * Z) : Prop :=
  let '(a1, a2, a3) := a in
  let '(b1, b2, b3) := b in
  (a1 = b1 /\ a2 = b2 /\ a3 = b3)%Z.

Lemma lex_compare_spec a b :
  match lex_compare a b with
  | Lt => lex_lt a b
  | Eq => lex_eq a b
  | Gt => lex_lt b a
  end.
Proof.
  destruct a as [[a1 a2] a3], b as [[b1 b2] b3]; simpl.
  destruct (Z.compare_spec a1 b1); [|lia|lia].
  destruct (Z.compare_spec a2 b2); [|lia|lia].
  destruct (Z.compare_spec a3 b3); lia.
Qed.

Definition comparable (x : float) : Prop := is_nan_sf (Prim2SF x) = false.

Definition frank (x : float) : Z * Z * Z := rank (Prim2SF x).

Lemma ltb_rank x y :
  (x <? y)%float = true <-> comparable x /\ comparable y /\ lex_lt (frank x) (frank y).
Proof.
  unfold comparable, frank. rewrite ltb_spec. unfold SFltb. rewrite SFcompare_rank.
  destruct (is_nan_sf (Prim2SF x)), (is_nan_sf (Prim2SF y)); simpl;
    try (split; [discriminate | intros (? & ? & ?); discriminate]).
  pose proof (lex_compare_spec (rank (Prim2SF x)) (rank (Prim2SF y))) as H.
  destruct (rank (Prim2SF x)) as [[a1 a2] a3], (rank (Prim2SF y)) as [[b1 b2] b3].
  destruct (lex_compare (a1, a2, a3) (b1, b2, b3)); simpl in *;
    (split; [try discriminate; intros _; repeat split; lia
            | intros (_ & _ & ?); try reflexivity; lia]).
Qed.

Lemma leb_rank x y :
  (x <=? y)%float = true <-> comparable x /\ comparable y /\ lex_le (frank x) (frank y).
Proof.
  unfold comparable, frank. rewrite leb_spec. unfold SFleb. rewrite SFcompare_rank.
  destruct (is_nan_sf (Prim2SF x)), (is_nan_sf (Prim2SF y)); simpl;
    try (split; [discriminate | intros (? & ? & ?); discriminate]).
  pose proof (lex_compare_spec (rank (Prim2SF x)) (rank (Prim2SF y))) as H.
  destruct (rank (Prim2SF x)) as [[a1 a2] a3], (rank (Prim2SF y)) as [[b1 b2] b3].
  destruct (lex_compare (a1, a2, a3) (b1, b2, b3)); simpl in *;
    (split; [try discriminate; intros _; repeat split; lia
            | intros (_ & _ & ?); try reflexivity; lia]).
Qed.

Lemma eqb_rank x y :
  (x =? y)%float = true <-> comparable x /\ comparable y /\ lex_eq (frank x) (frank y).
Proof.
  unfold comparable, frank. rewrite eqb_spec. unfold SFeqb. rewrite SFcompare_rank.
  destruct (is_nan_sf (Prim2SF x)), (is_nan_sf (Prim2SF y)); simpl;
    try (split; [discriminate | intros (? & ? & ?); discriminate]).
  pose proof (lex_compare_spec (rank (Prim2SF x)) (rank (Prim2SF y))) as H.
  destruct (rank (Prim2SF x)) as [[a1 a2] a3], (rank (Prim2SF y)) as [[b1 b2] b3].
  destruct (lex_compare (a1, a2, a3) (b1, b2, b3)); simpl in *;
    (split; [try discriminate; intros _; repeat split; lia
            | intros (_ & _ & ?); try reflexivity; lia]).
Qed.

(** Turns the float comparisons of the context and of the goal into
    statements on ranks and closes the goal by linear arithmetic. *)
Ltac rank_false H :=
  match type of H with
  | (?x <? ?y)%float = false =>
      let K := fresh in
      assert (K : ~ (comparable x /\ comparable y /\ lex_lt (frank x) (frank y)))
        by (rewrite <- ltb_rank; congruence); clear H
  end.

Ltac rank_open :=
  repeat match goal with
         | H : (_ <? _)%float = true |- _ => apply ltb_rank in H; destruct H as (? & ? & H)
         | H : (_ <=? _)%float = true |- _ => apply leb_rank in H; destruct H as (? & ? & H)
         | H : (_ =? _)%float = true |- _ => apply eqb_rank in H; destruct H as (? & ? & H)
         | H : (_ <? _)%float = false |- _ => rank_false H
         end.

Ltac rank_goal :=
  match goal with
  | |- ?b = false => let E := fresh in destruct b eqn:E; [exfalso | reflexivity]
  | |- (_ <? _)%float = true => apply ltb_rank
  | |- (_ <=? _)%float = true => apply leb_rank
  | |- (_ =? _)%float = true => apply eqb_rank
  | |- _ => idtac
  end.

Ltac rank_close :=
  unfold lex_lt, lex_le, lex_eq in *;
  repeat match goal with
         | |- context [frank ?x] =>
             let a := fresh "a" in let b := fresh "b" in let c := fresh "c" in
             destruct (frank x) as [[a b] c]
         | H : context [frank ?x] |- _ =>
             let a := fresh "a" in let b := fresh "b" in let c := fresh "c" in
             destruct (frank x) as [[a b] c]
         end;
  intuition lia.

Ltac by_rank := rank_goal; rank_open; rank_close.

Lemma leb_not_ltb x y : (x <=? y)%float = true -> (y <? x)%float = false.
Proof. intros. by_rank. Qed.

Lemma eqb_not_ltb x y : (x =? y)%float = true -> (y <? x)%float = false.
Proof. intros. by_rank. Qed.

Lemma ltb_comparable_l x y : (x <? y)%float = true -> comparable x.
Proof. intros H. apply ltb_rank in H. tauto. Qed.

Lemma ltb_comparable_r x y : (x <? y)%float = true -> comparable y.
Proof. intros H. apply ltb_rank in H. tauto. Qed.

Lemma not_ltb_leb x y :
  comparable x -> comparable y -> (x <? y)%float = false -> (y <=? x)%float = true.
Proof. intros. by_rank. Qed.

Lemma leb_trans x y z :
  (x <=? y)%float = true -> (y <=? z)%float = true -> (x <=? z)%float = true.
Proof. intros. by_rank. Qed.

Lemma ltb_leb x y : (x <? y)%float = true -> (x <=? y)%float = true.
Proof. intros. by_rank. Qed.

Lemma ltb_not_eqb_class a b v :
  (a <? b)%float = true -> (a =? v)%float = true -> (b =? v)%float = false.
Proof. intros. by_rank. Qed.

End FloatOrder.
Import FloatOrder.

(* ================================================================== *)
(** * The shared-pool test and the total of the summary *)
(* ================================================================== *)

Lemma pools_are_shared_iff spot_value swap_value :
  pools_are_shared spot_value swap_value = true <->
  (abs (spot_value - swap_value) <? 1)%float = true /\ (0 <? spot_value)%float = true.
Proof. unfold pools_are_shared. apply andb_true_iff. Qed.

(** C8. With the threshold 1.0 of the script, the subtotals (1000.00,
    1000.50) are taken for one shared pool, the subtotals (1000.00,
    5000.00) and (0, 500) are not. *)
Theorem detector_examples :
  pools_are_shared 1000 1000.5 = true /\
  pools_are_shared 1000 5000 = false /\
  pools_are_shared 0 500 = false.
Proof.
  unfold pools_are_shared.
  split; [|split].
  - apply andb_true_iff. split; vm_compute; reflexivity.
  - apply andb_false_iff. left. vm_compute. reflexivity.
  - apply andb_false_iff. right. vm_compute. reflexivity.
Qed.

Lemma minus_zero_of_small spot_value swap_value :
  (swap_value =? 0)%float = true ->
  (0 <? spot_value)%float = true ->
  (spot_value <? 1)%float = true ->
  abs (spot_value - swap_value) = spot_value.
Proof.
  intros Hzero Hpos Hsmall. apply Prim2SF_inj. rewrite abs_spec, sub_spec.
  rewrite eqb_spec in Hzero. rewrite ltb_spec in Hpos, Hsmall.
  change (Prim2SF 0) with (S754_zero false) in Hzero, Hpos.
  change (Prim2SF 1) with (S754_finite false 4503599627370496 (-52)) in Hsmall.
  destruct (Prim2SF spot_value) as [s|s| |s m e]; try discriminate.
  - destruct s; discriminate.
  - destruct s; [discriminate|].
    destruct (Prim2SF swap_value) as [s'|s'| |s' m' e']; try discriminate.
    + reflexivity.
    + destruct s'; discriminate.
    + destruct s'; discriminate.
Qed.

(** C2, as the script has it. The pools are taken as shared exactly when
    the spot subtotal is strictly positive and the absolute difference of
    the two subtotals is below 1.0, hence whenever both subtotals are
    strictly positive and that close. They are not when the spot subtotal
    is zero, nor when the absolute difference is at least 1.0. The swap
    subtotal is not tested: when it is zero and the spot subtotal lies
    strictly between 0 and 1, the pools are taken as shared. *)
Theorem shared_pool_rule (spot_value swap_value : float) :
  (pools_are_shared spot_value swap_value = true <->
   (0 <? spot_value)%float = true /\
   (abs (spot_value - swap_value) <? 1)%float = true) /\
  ((spot_value =? 0)%float = true ->
   pools_are_shared spot_value swap_value = false) /\
  ((1 <=? abs (spot_value - swap_value))%float = true ->
   pools_are_shared spot_value swap_value = false) /\
  ((swap_value =? 0)%float = true ->
   (0 <? spot_value)%float = true ->
   (spot_value <? 1)%float = true ->
   pools_are_shared spot_value swap_value = true).
Proof.
  unfold pools_are_shared. split; [|split; [|split]].
  - rewrite andb_true_iff. tauto.
  - intros Hzero. apply andb_false_iff. right.
    apply eqb_not_ltb. exact Hzero.
  - intros Hfar. apply andb_false_iff. left.
    apply leb_not_ltb. exact Hfar.
  - intros Hzero Hpos Hsmall.
    rewrite (minus_zero_of_small _ _ Hzero Hpos Hsmall), Hsmall, Hpos.
    reflexivity.
Qed.

Lemma shared_pool_rule_witness :
  pools_are_shared 250 250.25 = true /\
  pools_are_shared 0 3 = false /\
  pools_are_shared 10 12 = false /\
  pools_are_shared 0.25 0 = true /\
  pools_are_shared 0.75 (-0) = true.
Proof.
  split; [|split; [|split; [|split]]].
  - apply (proj1 (shared_pool_rule 250 250.25)). split; reflexivity.
  - apply (proj1 (proj2 (shared_pool_rule 0 3))); reflexivity.
  - apply (proj1 (proj2 (proj2 (shared_pool_rule 10 12)))); reflexivity.
  - apply (proj2 (proj2 (proj2 (shared_pool_rule 0.25 0)))); reflexivity.
  - apply (proj2 (proj2 (proj2 (shared_pool_rule 0.75 (-0))))); reflexivity.
Defined.

(** C2 as stated fails: with a swap subtotal of zero and a spot subtotal
    of 0.5 the pools are taken as shared. *)
Lemma zero_swap_subtotal_shared :
  (0 =? 0)%float = true /\ pools_are_shared 0.5 0 = true.
Proof. split; vm_compute; reflexivity. Qed.

Lemma report_total_run spot_value swap_value funding_value s :
  report_total spot_value swap_value funding_value s =
  (Ok tt,
   {| default_type := default_type s;
      out := out s ++
             if pools_are_shared spot_value swap_value
             then [Note "WARNING: Spot and Swap balances are nearly identical!";
                   Amount "ESTIMATED TOTAL" swap_value]
             else [Amount "TOTAL EQUITY"
                     (spot_value + swap_value + funding_value)%float] |}).
Proof.
  unfold report_total.
  destruct (pools_are_shared spot_value swap_value).
  - unfold bind, print. simpl. rewrite <- app_assoc. reflexivity.
  - reflexivity.
Qed.

(** C1, as the script has it. When the pools are taken as shared the
    total shown is the swap subtotal alone: neither the spot subtotal nor
    the funding subtotal is added. Otherwise it is spot + swap + funding.
    The unrealized PnL is no input of the total in either case. *)
Theorem total_equity_rule (spot_value swap_value funding_value : float) :
  total_equity spot_value swap_value funding_value =
  Some (if pools_are_shared spot_value swap_value
        then swap_value
        else (spot_value + swap_value + funding_value)%float).
Proof.
  unfold total_equity. rewrite report_total_run.
  destruct (pools_are_shared spot_value swap_value); reflexivity.
Qed.

(** C1 as stated fails: with shared pools and a funding subtotal of 50,
    the total shown is 1000.5 and not 1000.5 + 50. *)
Lemma shared_total_omits_funding :
  pools_are_shared 1000 1000.5 = true /\
  total_equity 1000 1000.5 50 <> Some (1000.5 + 50)%float.
Proof.
  split; [vm_compute; reflexivity|].
  intros H.
  apply (f_equal (fun o => match o with
                           | Some x => (x <? 1001)%float
                           | None => false
                           end)) in H.
  vm_compute in H. discriminate H.
Qed.

(* ================================================================== *)
(** * The listing of the spot assets *)
(* ================================================================== *)

(** [a] is listed before [b]: the total of [b] does not exceed that of [a]. *)
Definition before (a b : asset) : Prop := (total b <=? total a)%float = true.

(** The totals that reach the listing are strictly positive. *)
Definition positive_total (a : asset) : Prop := (0 <? total a)%float = true.

(** The assets of total [v] (as [==] compares floats). *)
Definition of_total (v : float) (a : asset) : bool := (total a =? v)%float.

Lemma insert_by_total_perm a l : Permutation (insert_by_total a l) (a :: l).
Proof.
  induction l as [|b l IH]; simpl.
  - apply Permutation_refl.
  - destruct (total a <? total b)%float.
    + eapply perm_trans; [apply perm_skip, IH | apply perm_swap].
    + apply Permutation_refl.
Qed.

Lemma sorted_by_total_desc_perm l : Permutation (sorted_by_total_desc l) l.
Proof.
  induction l as [|a l IH]; simpl.
  - apply perm_nil.
  - eapply perm_trans; [apply insert_by_total_perm | apply perm_skip, IH].
Qed.

Lemma insert_by_total_sorted a l :
  positive_total a -> Forall positive_total l ->
  StronglySorted before l -> StronglySorted before (insert_by_total a l).
Proof.
  unfold positive_total. intros Ha Hl Hs.
  induction l as [|b l IH]; simpl.
  - constructor; constructor.
  - inversion Hl as [|? ? Hb Hl']; subst.
    inversion Hs as [|? ? Hs' Hbl]; subst.
    destruct (total a <? total b)%float eqn:E.
    + constructor; [apply IH; assumption|].
      apply (Permutation_Forall (Permutation_sym (insert_by_total_perm a l))).
      constructor; [apply ltb_leb; exact E | exact Hbl].
    + assert (Hab : before a b).
      { apply not_ltb_leb;
          [eapply ltb_comparable_r | eapply ltb_comparable_r |]; eassumption. }
      constructor; [exact Hs|].
      constructor; [exact Hab|].
      eapply Forall_impl; [|exact Hbl].
      intros c Hbc. unfold before in *. eapply leb_trans; eassumption.
Qed.

Lemma sorted_by_total_desc_sorted l :
  Forall positive_total l -> StronglySorted before (sorted_by_total_desc l).
Proof.
  induction l as [|a l IH]; simpl; intros Hl.
  - constructor.
  - inversion Hl; subst. apply insert_by_total_sorted; auto.
    apply (Permutation_Forall (Permutation_sym (sorted_by_total_desc_perm l))).
    assumption.
Qed.

Lemma insert_by_total_stable v a l :
  filter (of_total v) (insert_by_total a l) = filter (of_total v) (a :: l).
Proof.
  induction l as [|b l IH]; [reflexivity|].
  simpl. destruct (total a <? total b)%float eqn:E; [|reflexivity].
  simpl. rewrite IH. simpl. unfold of_total.
  destruct (total a =? v)%float eqn:Ea; [|reflexivity].
  rewrite (ltb_not_eqb_class _ _ _ E Ea). reflexivity.
Qed.

Lemma sorted_by_total_desc_stable v l :
  filter (of_total v) (sorted_by_total_desc l) = filter (of_total v) l.
Proof.
  induction l as [|a l IH]; [reflexivity|].
  simpl. rewrite insert_by_total_stable. simpl. rewrite IH. reflexivity.
Qed.

(* ================================================================== *)
(** * The spot probe (Snapshot Normalizer) *)
(* ================================================================== *)

Definition asset_row (a : asset) : line :=
  AssetRow (currency a) (total a) (free a) (used a).

Lemma for_each_print_asset l s :
  for_each l print_asset s =
  (Ok tt, {| default_type := default_type s; out := out s ++ map asset_row l |}).
Proof.
  revert s. induction l as [|a l IH]; intros s; simpl.
  - unfold ret. rewrite app_nil_r. destruct s; reflexivity.
  - unfold bind, print_asset, print. rewrite IH. simpl.
    rewrite <- app_assoc. reflexivity.
Qed.

Lemma asset_rows_app l1 l2 : asset_rows (l1 ++ l2) = asset_rows l1 ++ asset_rows l2.
Proof. unfold asset_rows. apply flat_map_app. Qed.

Lemma asset_rows_map l : asset_rows (map asset_row l) = l.
Proof.
  induction l as [|a l IH]; [reflexivity|].
  simpl. rewrite IH. destruct a; reflexivity.
Qed.

(** The exchange used in the examples: it answers from fixed tables,
    whatever the mode and the time. *)
Definition table_exchange (balances : option string -> res pyval)
           (positions : res pyval) (orders : res (list (option string)))
           (fills : string -> res pyval) : exchange :=
  {| fetch_balance := fun _ ty => balances ty;
     fetch_positions := fun _ => positions;
     fetch_closed_orders := fun _ _ => orders;
     fetch_my_trades := fun _ symbol _ => fills symbol;
     load_markets := fun _ => Ok [] |}.

Definition unavailable {A} : res A := Raise (ExchangeError "NetworkError").

Section Spot.

#[local] Arguments str_in : simpl never.
#[local] Arguments num_field : simpl never.

Variable float_of_str : string -> option float.


(** What the body of the [try] computes before it prints. *)
Definition spot_outcome (ex : exchange) : res (pyval * (float * list asset)) :=
  balance <- fetch_balance ex "spot" (Some "spot") ;;
  items <- as_dict balance ;;
  acc <- spot_loop float_of_str items 0%float [] ;;
  Ok (balance, acc).

Lemma test_spot_balance_run ex s :
  test_spot_balance float_of_str ex s =
  match spot_outcome ex with
  | Ok (balance, (total_usdt_equiv, assets)) =>
      (Ok (SpotOk total_usdt_equiv assets balance),
       {| default_type := "spot";
          out := out s ++
                 [Header "SPOT BALANCE";
                  Count "Assets with balance" (List.length assets)] ++
                 map asset_row (sorted_by_total_desc assets) ++
                 [Amount "SPOT Stablecoin Total" total_usdt_equiv] |})
  | Raise e =>
      (Ok (SpotErr (exn_str e)),
       {| default_type := "spot";
          out := out s ++ [Header "SPOT BALANCE";
                           Failure "Error fetching spot balance" e] |})
  end.
Proof.
  unfold test_spot_balance, spot_try, spot_except, spot_outcome.
  unfold bind, try_except, print_section, set_default_type, get_default_type, lift, print.
  simpl.
  destruct (fetch_balance ex "spot" (Some "spot")) as [balance|e]; simpl;
    [|rewrite <- app_assoc; reflexivity].
  destruct (as_dict balance) as [items|e]; simpl;
    [|rewrite <- app_assoc; reflexivity].
  destruct (spot_loop float_of_str items 0%float []) as [[u assets]|e]; simpl;
    [|rewrite <- app_assoc; reflexivity].
  rewrite for_each_print_asset. simpl. unfold ret.
  rewrite <- !app_assoc. reflexivity.
Qed.

(** The value a numeric field is coerced to (0 when missing or null). *)
Definition coerced (d : dict) (k : string) : float :=
  match num_field float_of_str d k with
  | Ok x => x
  | Raise _ => 0%float
  end.

(** The input contract of the normalizer, entry by entry: under a key
    that is not reserved, a record's [total], [free] and [used] are
    missing, null or numeric. *)
Definition record_ok (kv : string * pyval) : bool :=
  str_in (fst kv) reserved_keys ||
  match snd kv with
  | VDict d => is_ok (num_field float_of_str d "total") &&
               is_ok (num_field float_of_str d "free") &&
               is_ok (num_field float_of_str d "used")
  | _ => true
  end.

(** The balance an entry of the mapping gives rise to, if any. *)
Definition listed (kv : string * pyval) : list asset :=
  if str_in (fst kv) reserved_keys then []
  else match snd kv with
       | VDict d =>
           if (0 <? coerced d "total")%float
           then [{| currency := fst kv; total := coerced d "total";
                    free := coerced d "free"; used := coerced d "used" |}]
           else []
       | _ => []
       end.

Definition is_stable (a : asset) : bool := str_in (currency a) stablecoins.

Lemma listed_positive kv a : In a (listed kv) -> positive_total a.
Proof.
  unfold listed, positive_total.
  destruct (str_in (fst kv) reserved_keys); [intros []|].
  destruct (snd kv); try (intros []).
  destruct (0 <? coerced d "total")%float eqn:E; [|intros []].
  intros [<-|[]]. exact E.
Qed.

Lemma spot_loop_spec items :
  forallb record_ok items = true ->
  forall total_usdt_equiv assets,
    spot_loop float_of_str items total_usdt_equiv assets =
    Ok (fold_left PrimFloat.add
          (map total (filter is_stable (flat_map listed items)))
          total_usdt_equiv,
        assets ++ flat_map listed items).
Proof.
  induction items as [|[currency data] rest IH]; intros Hok u acc.
  - simpl. rewrite app_nil_r. reflexivity.
  - simpl in Hok. apply andb_true_iff in Hok. destruct Hok as [Hhead Hrest].
    specialize (IH Hrest).
    unfold record_ok in Hhead. simpl in *. unfold listed at 1 3. simpl.
    destruct (str_in currency reserved_keys) eqn:Hres; simpl in *.
    + apply IH.
    + destruct data; try apply IH.
      unfold coerced.
      destruct (num_field float_of_str d "total") as [t|]; [|discriminate].
      destruct (num_field float_of_str d "free") as [f|]; [|discriminate].
      destruct (num_field float_of_str d "used") as [u0|]; [|discriminate].
      simpl.
      destruct (0 <? t)%float; simpl; [|apply IH].
      rewrite IH. rewrite <- app_assoc. unfold is_stable at 2. simpl.
      destruct (str_in currency stablecoins); reflexivity.
Qed.

Lemma spot_loop_positive items :
  forall total_usdt_equiv assets total_usdt_equiv' assets',
    spot_loop float_of_str items total_usdt_equiv assets =
    Ok (total_usdt_equiv', assets') ->
    Forall positive_total assets -> Forall positive_total assets'.
Proof.
  induction items as [|[currency data] rest IH]; intros u acc u' acc' Hrun Hacc.
  - simpl in Hrun. inversion Hrun; subst. exact Hacc.
  - simpl in Hrun.
    destruct (str_in currency reserved_keys); [eapply IH; eassumption|].
    destruct data; try (eapply IH; eassumption).
    destruct (num_field float_of_str d "total") as [t|]; [|discriminate].
    destruct (num_field float_of_str d "free") as [f|]; [|discriminate].
    destruct (num_field float_of_str d "used") as [u0|]; [|discriminate].
    simpl in Hrun.
    destruct (0 <? t)%float eqn:E; [|eapply IH; eassumption].
    eapply IH; [eassumption|].
    apply Forall_app. split; [exact Hacc|].
    constructor; [exact E | constructor].
Qed.

(** C5. For a raw balance mapping within the input contract, the probe
    returns the balances of exactly the records whose coerced total is
    strictly positive, reserved keys skipped, and its subtotal is the sum
    of the totals of the returned balances held in USDT, USDC or USD; the
    other balances are returned and add nothing to it. *)
Theorem normalizer_balances (ex : exchange) (s : state) (items : dict) :
  fetch_balance ex "spot" (Some "spot") = Ok (VDict items) ->
  forallb record_ok items = true ->
  let assets := flat_map listed items in
  (exists s',
      test_spot_balance float_of_str ex s =
      (Ok (SpotOk (float_sum (map total (filter is_stable assets)))
                  assets (VDict items)), s')) /\
  (forall currency d,
      In (currency, VDict d) items ->
      str_in currency reserved_keys = false ->
      (In {| currency := currency; total := coerced d "total";
             free := coerced d "free"; used := coerced d "used" |} assets
       <-> (0 <? coerced d "total")%float = true)) /\
  (forall a, In a assets ->
             positive_total a /\
             exists data, In (currency a, data) items /\
                          str_in (currency a) reserved_keys = false).
Proof.
  intros Hfetch Hok assets. split; [|split].
  - rewrite test_spot_balance_run. unfold spot_outcome.
    rewrite Hfetch. simpl.
    rewrite (spot_loop_spec items Hok). simpl. eexists. reflexivity.
  - intros currency d Hin Hres. split.
    + intros Ha. apply in_flat_map in Ha. destruct Ha as (kv & _ & Ha).
      apply listed_positive in Ha. exact Ha.
    + intros Hpos. apply in_flat_map. exists (currency, VDict d).
      split; [exact Hin|].
      unfold listed. simpl. rewrite Hres, Hpos. left. reflexivity.
  - intros a Ha. apply in_flat_map in Ha. destruct Ha as ([c data] & Hin & Ha).
    split; [eapply listed_positive; eassumption|].
    unfold listed in Ha. simpl in Ha.
    destruct (str_in c reserved_keys) eqn:Hres; [destruct Ha|].
    destruct data; try (destruct Ha).
    destruct (0 <? coerced d "total")%float; [|destruct Ha].
    destruct Ha as [<-|[]]. simpl. eexists. split; eassumption.
Qed.

(** An entry of the raw mapping that gives rise to a balance. *)
Definition is_listed (kv : string * pyval) : bool :=
  match listed kv with
  | [] => false
  | _ :: _ => true
  end.

Lemma listed_currencies items :
  map currency (flat_map listed items) = map fst (filter is_listed items).
Proof.
  induction items as [|kv rest IH]; [reflexivity|].
  cbn [flat_map filter]. rewrite map_app, IH.
  unfold is_listed. unfold listed at 1 3.
  destruct (str_in (fst kv) reserved_keys); [reflexivity|].
  destruct (snd kv); try reflexivity.
  destruct (0 <? coerced d "total")%float; reflexivity.
Qed.

Lemma spot_loop_returns_record_ok items :
  forall total_usdt_equiv assets r,
    spot_loop float_of_str items total_usdt_equiv assets = Ok r ->
    forallb record_ok items = true.
Proof.
  induction items as [|[currency data] rest IH]; intros u acc r Hrun;
    [reflexivity|].
  simpl in Hrun. cbn [forallb]. unfold record_ok at 1. cbn [fst snd].
  destruct (str_in currency reserved_keys); simpl; [eapply IH; eassumption|].
  destruct data; try (eapply IH; eassumption).
  destruct (num_field float_of_str d "total") as [t|]; [|discriminate].
  destruct (num_field float_of_str d "free") as [f|]; [|discriminate].
  destruct (num_field float_of_str d "used") as [u0|]; [|discriminate].
  simpl in *. destruct (0 <? t)%float; eapply IH; eassumption.
Qed.

(** C4, as the script has it. The probe never raises. The balances it
    returns are in the order of the raw mapping: they are the balances of
    the entries that give rise to one, taken in the order the mapping
    yields them (none when a field is malformed). The asset rows it
    prints are the returned balances sorted by descending total, a stable
    sort: balances of equal total stay in the order of the raw mapping,
    whatever their currency. The outcome depends on the exchange only
    through the response to the spot balance request. *)
Theorem spot_listing_order (ex : exchange) (s : state) :
  exists r new,
    test_spot_balance float_of_str ex s =
    (Ok r, {| default_type := "spot"; out := out s ++ new |}) /\
    asset_rows new = sorted_by_total_desc (spot_assets r) /\
    Permutation (asset_rows new) (spot_assets r) /\
    StronglySorted before (asset_rows new) /\
    (forall v, filter (of_total v) (asset_rows new) =
               filter (of_total v) (spot_assets r)) /\
    (forall ex',
        fetch_balance ex' "spot" (Some "spot") =
        fetch_balance ex "spot" (Some "spot") ->
        test_spot_balance float_of_str ex' s =
        test_spot_balance float_of_str ex s) /\
    (forall items,
        fetch_balance ex "spot" (Some "spot") = Ok (VDict items) ->
        if forallb record_ok items
        then spot_assets r = flat_map listed items /\
             map currency (spot_assets r) = map fst (filter is_listed items) /\
             (forall v, filter (of_total v) (asset_rows new) =
                        filter (of_total v) (flat_map listed items))
        else spot_assets r = [] /\ asset_rows new = []).
Proof.
  assert (Hdet : forall ex',
             fetch_balance ex' "spot" (Some "spot") =
             fetch_balance ex "spot" (Some "spot") ->
             test_spot_balance float_of_str ex' s =
             test_spot_balance float_of_str ex s).
  { intros ex' Hsame. rewrite !test_spot_balance_run.
    unfold spot_outcome. rewrite Hsame. reflexivity. }
  rewrite test_spot_balance_run.
  destruct (spot_outcome ex) as [[balance [u assets]]|e] eqn:Hrun.
  - assert (Hloop : forall items,
               fetch_balance ex "spot" (Some "spot") = Ok (VDict items) ->
               spot_loop float_of_str items 0%float [] = Ok (u, assets)).
    { intros items Hfetch. unfold spot_outcome in Hrun.
      rewrite Hfetch in Hrun. simpl in Hrun.
      destruct (spot_loop float_of_str items 0%float []) as [[u' assets']|];
        [|discriminate].
      simpl in Hrun. inversion Hrun; subst. reflexivity. }
    assert (Hpos : Forall positive_total assets).
    { unfold spot_outcome in Hrun.
      destruct (fetch_balance ex "spot" (Some "spot")) as [b|]; [|discriminate].
      simpl in Hrun. destruct (as_dict b) as [items|]; [|discriminate].
      simpl in Hrun.
      destruct (spot_loop float_of_str items 0%float []) as [[u' assets']|] eqn:Hl;
        [|discriminate].
      simpl in Hrun. inversion Hrun; subst.
      eapply spot_loop_positive; [exact Hl | constructor]. }
    eexists. eexists. split; [reflexivity|].
    simpl. rewrite asset_rows_app, asset_rows_map. simpl. rewrite app_nil_r.
    split; [reflexivity|].
    split; [apply sorted_by_total_desc_perm|].
    split; [apply sorted_by_total_desc_sorted; exact Hpos|].
    split; [intros v; apply sorted_by_total_desc_stable|].
    split.
    + intros ex' Hsame. rewrite (Hdet ex' Hsame).
      rewrite test_spot_balance_run, Hrun. reflexivity.
    + intros items Hfetch. specialize (Hloop items Hfetch).
      rewrite (spot_loop_returns_record_ok _ _ _ _ Hloop).
      rewrite (spot_loop_spec items (spot_loop_returns_record_ok _ _ _ _ Hloop))
        in Hloop.
      simpl in Hloop. inversion Hloop as [[Hu Hassets]].
      split; [reflexivity|]. split; [apply listed_currencies|].
      intros v. apply sorted_by_total_desc_stable.
  - eexists. eexists. split; [reflexivity|].
    simpl. repeat split; try constructor.
    + intros ex' Hsame. rewrite (Hdet ex' Hsame).
      rewrite test_spot_balance_run, Hrun. reflexivity.
    + intros items Hfetch.
      destruct (forallb record_ok items) eqn:Hok; [|split; reflexivity].
      exfalso. unfold spot_outcome in Hrun. rewrite Hfetch in Hrun.
      simpl in Hrun. rewrite (spot_loop_spec items Hok) in Hrun.
      discriminate.
Qed.

Definition coercion_error (e : exn) : Prop :=
  e = ValueError \/ e = TypeError \/ e = OverflowError.

Lemma py_float_error v e :
  py_float float_of_str v = Raise e -> coercion_error e.
Proof.
  unfold coercion_error.
  destruct v as [|b|n|x|str|l|d]; simpl; intros H;
    try (inversion H; subst; tauto).
  - unfold float_of_int in H.
    destruct (is_infinity _); inversion H; subst; tauto.
  - destruct (float_of_str str); inversion H; subst; tauto.
Qed.

Lemma num_field_error d k e :
  num_field float_of_str d k = Raise e -> coercion_error e.
Proof. unfold num_field. apply py_float_error. Qed.

Lemma num_field_truthy d k :
  truthy (dict_get d k (VInt 0)) = true ->
  num_field float_of_str d k = py_float float_of_str (dict_get d k (VInt 0)).
Proof. unfold num_field, py_or. intros ->. reflexivity. Qed.

Lemma num_field_falsy d k :
  truthy (dict_get d k (VInt 0)) = false ->
  num_field float_of_str d k = Ok 0%float.
Proof. unfold num_field, py_or. intros ->. vm_compute. reflexivity. Qed.

Lemma spot_loop_raises items currency d k :
  In (currency, VDict d) items ->
  str_in currency reserved_keys = false ->
  In k ["total"; "free"; "used"] ->
  is_ok (num_field float_of_str d k) = false ->
  forall total_usdt_equiv assets,
  exists e, coercion_error e /\
            spot_loop float_of_str items total_usdt_equiv assets = Raise e.
Proof.
  intros Hin Hres Hk Hbad.
  induction items as [|[c data] rest IH]; [destruct Hin|].
  intros u acc. simpl.
  destruct Hin as [Heq|Hin].
  - inversion Heq; subst. rewrite Hres.
    destruct (num_field float_of_str d "total") as [t|e] eqn:Et;
      [|exists e; split; [eapply num_field_error; eassumption | reflexivity]].
    destruct (num_field float_of_str d "free") as [f|e] eqn:Ef;
      [|exists e; split; [eapply num_field_error; eassumption | reflexivity]].
    destruct (num_field float_of_str d "used") as [u0|e] eqn:Eu;
      [|exists e; split; [eapply num_field_error; eassumption | reflexivity]].
    exfalso.
    destruct Hk as [<-|[<-|[<-|[]]]];
      [rewrite Et in Hbad | rewrite Ef in Hbad | rewrite Eu in Hbad];
      discriminate.
  - specialize (IH Hin).
    destruct (str_in c reserved_keys); [apply IH|].
    destruct data; try apply IH.
    destruct (num_field float_of_str d0 "total") as [t|e] eqn:Et;
      [|exists e; split; [eapply num_field_error; eassumption | reflexivity]].
    destruct (num_field float_of_str d0 "free") as [f|e] eqn:Ef;
      [|exists e; split; [eapply num_field_error; eassumption | reflexivity]].
    destruct (num_field float_of_str d0 "used") as [u0|e] eqn:Eu;
      [|exists e; split; [eapply num_field_error; eassumption | reflexivity]].
    simpl. destruct (0 <? t)%float; apply IH.
Qed.

(** C3, as the script has it. When a record of the raw mapping holds,
    in [total], [free] or [used], a value that is truthy and that
    [float()] does not accept, the coercion raises a [ValueError], a
    [TypeError] or an [OverflowError]; the probe catches it, prints it,
    and returns the error result, whose subtotal reads 0 and whose
    balances are empty: nothing is raised to the caller. A missing or
    null field, like every other falsy value, is coerced to 0 without
    error. *)
Theorem malformed_field_is_caught (ex : exchange) (s : state) :
  (forall items currency d k,
      fetch_balance ex "spot" (Some "spot") = Ok (VDict items) ->
      In (currency, VDict d) items ->
      str_in currency reserved_keys = false ->
      In k ["total"; "free"; "used"] ->
      truthy (dict_get d k (VInt 0)) = true ->
      is_ok (py_float float_of_str (dict_get d k (VInt 0))) = false ->
      exists e r,
        coercion_error e /\
        test_spot_balance float_of_str ex s =
        (Ok r,
         {| default_type := "spot";
            out := out s ++ [Header "SPOT BALANCE";
                             Failure "Error fetching spot balance" e] |}) /\
        r = SpotErr (exn_str e) /\
        spot_usdt_equiv r = 0%float /\ spot_assets r = []) /\
  (forall d k,
      truthy (dict_get d k (VInt 0)) = false ->
      num_field float_of_str d k = Ok 0%float).
Proof.
  split.
  - intros items currency d k Hfetch Hin Hres Hk Htruthy Hbad.
    rewrite <- (num_field_truthy _ _ Htruthy) in Hbad.
    destruct (spot_loop_raises items currency d k Hin Hres Hk Hbad 0%float [])
      as (e & He & Hloop).
    exists e, (SpotErr (exn_str e)).
    split; [exact He|].
    rewrite test_spot_balance_run. unfold spot_outcome.
    rewrite Hfetch. simpl. rewrite Hloop. simpl.
    repeat split.
  - apply num_field_falsy.
Qed.

End Spot.

(** ** Examples of spot responses *)

Definition holding (total free used : pyval) : pyval :=
  VDict [("total", total); ("free", free); ("used", used)].

(** A response within the contract: metadata, a null field, a numeric
    string, an integer zero and a record without [free] and [used]. *)
Definition mixed_balance : dict :=
  [("info", VDict [("code", VInt 200)]);
   ("USDT", holding (VFloat 100.5) (VFloat 100) (VFloat 0.5));
   ("BTC", holding (VFloat 0.25) (VFloat 0.25) VNone);
   ("ETH", VDict [("total", VNone)]);
   ("USDC", holding (VStr "2.5") (VStr "2.5") (VInt 0));
   ("DOGE", holding (VInt 0) (VInt 0) (VInt 0));
   ("timestamp", VInt 17)].

Definition spot_only (balance : res pyval) : exchange :=
  table_exchange (fun _ => balance) unavailable unavailable (fun _ => unavailable).

Lemma normalizer_balances_witness :
  exists s',
    test_spot_balance sample_float_of_str (spot_only (Ok (VDict mixed_balance)))
                      initial_state =
    (Ok (SpotOk 103
           [{| currency := "USDT"; total := 100.5; free := 100; used := 0.5 |};
            {| currency := "BTC"; total := 0.25; free := 0.25; used := 0 |};
            {| currency := "USDC"; total := 2.5; free := 2.5; used := 0 |}]
           (VDict mixed_balance)), s').
Proof.
  destruct (normalizer_balances sample_float_of_str
              (spot_only (Ok (VDict mixed_balance))) initial_state mixed_balance)
    as [Hrun _].
  - reflexivity.
  - vm_compute. reflexivity.
  - exact Hrun.
Defined.

(** The order the claim C4 describes: descending total, then ascending
    currency. *)
Definition claimed_before (a b : asset) : bool :=
  (total b <? total a)%float ||
  ((total a =? total b)%float && String.leb (currency a) (currency b)).

Fixpoint ordered_as_claimed (l : list asset) : bool :=
  match l with
  | [] => true
  | a :: l' => match l' with
               | [] => true
               | b :: _ => claimed_before a b && ordered_as_claimed l'
               end
  end.

Definition tied_balance : dict :=
  [("BTC", holding (VFloat 1) (VFloat 1) (VFloat 0));
   ("USDT", holding (VFloat 5) (VFloat 5) (VFloat 0));
   ("ETH", holding (VFloat 5) (VFloat 5) (VFloat 0))].

Definition plain (currency : string) (total : float) : asset :=
  {| currency := currency; total := total; free := total; used := 0 |}.

(** C4 as stated fails: the balances are returned in the order of the
    raw mapping, and the rows are printed with USDT before ETH although
    both total 5. *)
Lemma listing_keeps_mapping_order_on_ties :
  let run := test_spot_balance sample_float_of_str
               (spot_only (Ok (VDict tied_balance))) initial_state in
  fst run = Ok (SpotOk 5 [plain "BTC" 1; plain "USDT" 5; plain "ETH" 5]
                       (VDict tied_balance)) /\
  asset_rows (out (snd run)) = [plain "USDT" 5; plain "ETH" 5; plain "BTC" 1] /\
  ordered_as_claimed [plain "BTC" 1; plain "USDT" 5; plain "ETH" 5] = false /\
  ordered_as_claimed [plain "USDT" 5; plain "ETH" 5; plain "BTC" 1] = false.
Proof. repeat split; vm_compute; reflexivity. Qed.

Lemma spot_listing_order_witness :
  exists r new,
    test_spot_balance sample_float_of_str
      (spot_only (Ok (VDict tied_balance))) initial_state =
    (Ok r, {| default_type := "spot"; out := new |}) /\
    spot_assets r = [plain "BTC" 1; plain "USDT" 5; plain "ETH" 5] /\
    asset_rows new = [plain "USDT" 5; plain "ETH" 5; plain "BTC" 1].
Proof.
  destruct (spot_listing_order sample_float_of_str
              (spot_only (Ok (VDict tied_balance))) initial_state)
    as (r & new & Hrun & Hrows & _ & _ & _ & _ & Hraw).
  specialize (Hraw tied_balance eq_refl).
  change (forallb (record_ok sample_float_of_str) tied_balance) with true in Hraw.
  cbv iota in Hraw. destruct Hraw as (Hassets & _).
  exists r, new. split; [exact Hrun|]. split.
  - rewrite Hassets. vm_compute. reflexivity.
  - rewrite Hrows, Hassets. vm_compute. reflexivity.
Defined.

Definition text_total : dict := [("BTC", holding (VStr "abc") VNone VNone)].
Definition empty_text_total : dict := [("BTC", holding (VStr "") VNone VNone)].

(** C3 as stated fails: with the total ['abc'] the probe returns its
    error result and raises nothing; with the empty string as total, a
    present value that is no number, there is no error at all. *)
Lemma malformed_field_does_not_propagate :
  fst (test_spot_balance sample_float_of_str
         (spot_only (Ok (VDict text_total))) initial_state) =
  Ok (SpotErr "ValueError") /\
  fst (test_spot_balance sample_float_of_str
         (spot_only (Ok (VDict empty_text_total))) initial_state) =
  Ok (SpotOk 0 [] (VDict empty_text_total)).
Proof. split; vm_compute; reflexivity. Qed.

Lemma malformed_field_is_caught_witness :
  (exists e r,
      coercion_error e /\
      test_spot_balance sample_float_of_str
        (spot_only (Ok (VDict text_total))) initial_state =
      (Ok r,
       {| default_type := "spot";
          out := [Header "SPOT BALANCE";
                  Failure "Error fetching spot balance" e] |}) /\
      r = SpotErr (exn_str e) /\
      spot_usdt_equiv r = 0%float /\ spot_assets r = []) /\
  num_field sample_float_of_str [("total", VNone)] "free" = Ok 0%float.
Proof.
  destruct (malformed_field_is_caught sample_float_of_str
              (spot_only (Ok (VDict text_total))) initial_state)
    as [Hcaught Hnull].
  split.
  - apply (Hcaught text_total "BTC"
             [("total", VStr "abc"); ("free", VNone); ("used", VNone)] "total").
    + reflexivity.
    + left. reflexivity.
    + reflexivity.
    + left. reflexivity.
    + reflexivity.
    + reflexivity.
  - apply Hnull. reflexivity.
Defined.

(* ================================================================== *)
(** * The positions probe (Position Aggregator) *)
(* ================================================================== *)

Section Positions.

#[local] Arguments num_field : simpl never.
#[local] Arguments py_format : simpl never.

Variable float_of_str : string -> option float.

Local Abbreviation size d := (coerced float_of_str d "contracts").

(** The fields the loop reads from a retained position can all be
    coerced, and its symbol and side can be aligned in a row. *)
Definition row_ok (d : dict) : bool :=
  is_ok (num_field float_of_str d "entryPrice") &&
  is_ok (num_field float_of_str d "markPrice") &&
  is_ok (num_field float_of_str d "unrealizedPnl") &&
  is_ok (num_field float_of_str d "notional") &&
  is_ok (py_format (dict_get d "symbol" (VStr "Unknown")) aligned) &&
  is_ok (py_format (dict_get d "side" (VStr "Unknown")) aligned).

(** The input contract of the aggregator, record by record. *)
Definition position_ok (p : pyval) : bool :=
  match p with
  | VDict d => is_ok (num_field float_of_str d "contracts") &&
               (if (0 <? size d)%float then row_ok d else true)
  | _ => false
  end.

(** The positions of strictly positive size, in the order received. *)
Definition retained (ps : list pyval) : list dict :=
  flat_map (fun p => match p with
                     | VDict d => if (0 <? size d)%float then [d] else []
                     | _ => []
                     end) ps.

Definition position_row (d : dict) : line :=
  PositionRow (dict_get d "symbol" (VStr "Unknown"))
              (dict_get d "side" (VStr "Unknown"))
              (size d)
              (coerced float_of_str d "entryPrice")
              (coerced float_of_str d "markPrice")
              (coerced float_of_str d "unrealizedPnl").

Lemma is_open_spec d :
  is_ok (num_field float_of_str d "contracts") = true ->
  is_open float_of_str (VDict d) = Ok (0 <? size d)%float.
Proof.
  intros Hok. unfold is_open, coerced.
  destruct (truthy (dict_get d "contracts" (VInt 0))) eqn:Ht.
  - rewrite (num_field_truthy float_of_str _ _ Ht) in *.
    destruct (py_float float_of_str (dict_get d "contracts" (VInt 0)));
      [reflexivity | discriminate].
  - rewrite (num_field_falsy float_of_str _ _ Ht). reflexivity.
Qed.

Lemma open_positions_of_spec ps :
  forallb position_ok ps = true ->
  open_positions_of float_of_str ps = Ok (retained ps).
Proof.
  induction ps as [|p ps IH]; intros Hok; [reflexivity|].
  simpl in Hok. apply andb_true_iff in Hok. destruct Hok as [Hp Hps].
  destruct p as [| | | | |l|d]; try discriminate.
  simpl in Hp. apply andb_true_iff in Hp. destruct Hp as [Hsize _].
  cbn [open_positions_of retained flat_map].
  rewrite (is_open_spec d Hsize), (IH Hps). simpl.
  destruct (0 <? size d)%float; reflexivity.
Qed.

Lemma retained_row_ok ps :
  forallb position_ok ps = true -> Forall (fun d => row_ok d = true) (retained ps).
Proof.
  induction ps as [|p ps IH]; intros Hok; [constructor|].
  simpl in Hok. apply andb_true_iff in Hok. destruct Hok as [Hp Hps].
  destruct p as [| | | | |l|d]; try discriminate.
  simpl in Hp. apply andb_true_iff in Hp. destruct Hp as [_ Hrow].
  cbn [retained flat_map].
  destruct (0 <? size d)%float; simpl; [constructor|]; auto.
Qed.

Lemma retained_size ps d :
  In d (retained ps) <-> In (VDict d) ps /\ (0 <? size d)%float = true.
Proof.
  unfold retained. rewrite in_flat_map. split.
  - intros (p & Hin & Hd). destruct p as [| | | | |l|d']; try (destruct Hd).
    destruct (0 <? size d')%float eqn:E; [|destruct Hd].
    destruct Hd as [<-|[]]. split; assumption.
  - intros [Hin Hpos]. exists (VDict d). split; [exact Hin|].
    rewrite Hpos. left. reflexivity.
Qed.

Lemma positions_loop_spec ds :
  Forall (fun d => row_ok d = true) ds ->
  Forall (fun d => (0 <? size d)%float = true) ds ->
  forall total_unrealized_pnl total_notional s,
    positions_loop float_of_str ds total_unrealized_pnl total_notional s =
    (Ok (fold_left PrimFloat.add
           (map (fun d => coerced float_of_str d "unrealizedPnl") ds)
           total_unrealized_pnl,
         fold_left PrimFloat.add
           (map (fun d => abs (coerced float_of_str d "notional")) ds)
           total_notional),
     {| default_type := default_type s;
        out := out s ++ map position_row ds |}).
Proof.
  induction ds as [|d ds IH]; intros Hrows Hsizes pnl0 notional0 s.
  - simpl. unfold ret. rewrite app_nil_r. destruct s; reflexivity.
  - inversion Hrows as [|? ? Hrow Hrows']; subst.
    inversion Hsizes as [|? ? Hsize Hsizes']; subst.
    specialize (IH Hrows' Hsizes').
    unfold row_ok in Hrow.
    repeat (apply andb_true_iff in Hrow; destruct Hrow as [Hrow ?]).
    assert (Hc : is_ok (num_field float_of_str d "contracts") = true).
    { unfold coerced in Hsize.
      destruct (num_field float_of_str d "contracts"); [reflexivity|].
      vm_compute in Hsize. discriminate. }
    cbn [positions_loop map fold_left].
    unfold position_row, coerced.
    unfold bind at 1, lift at 1.
    destruct (num_field float_of_str d "contracts"); [|discriminate].
    unfold bind at 1, lift at 1.
    destruct (num_field float_of_str d "entryPrice"); [|discriminate].
    unfold bind at 1, lift at 1.
    destruct (num_field float_of_str d "markPrice"); [|discriminate].
    unfold bind at 1, lift at 1.
    destruct (num_field float_of_str d "unrealizedPnl"); [|discriminate].
    unfold bind at 1, lift at 1.
    destruct (num_field float_of_str d "notional"); [|discriminate].
    unfold bind at 1, lift at 1.
    destruct (py_format (dict_get d "symbol" (VStr "Unknown")) aligned);
      [|discriminate].
    unfold bind at 1, lift at 1.
    destruct (py_format (dict_get d "side" (VStr "Unknown")) aligned);
      [|discriminate].
    unfold bind at 1, print at 1.
    rewrite IH. simpl. rewrite <- app_assoc. reflexivity.
Qed.

#[local] Arguments positions_loop : simpl never.

(** C6. For a sequence of raw position records within the input
    contract, the probe retains exactly the positions whose coerced size
    is strictly positive, in the order received (a size of zero, a null
    size and a missing size all exclude the position); its unrealized PnL
    is the sum of the retained positions' unrealized PnL, sign included
    and a missing value counting as 0; its notional is the sum of the
    absolute values of their notional. *)
Theorem position_aggregate (ex : exchange) (s : state) (ps : list pyval) :
  fetch_positions ex "swap" = Ok (VList ps) ->
  forallb position_ok ps = true ->
  (exists s',
      test_positions float_of_str ex s =
      (Ok (PosOk (retained ps)
                 (float_sum (map (fun d => coerced float_of_str d "unrealizedPnl")
                                 (retained ps)))
                 (float_sum (map (fun d => abs (coerced float_of_str d "notional"))
                                 (retained ps)))),
       s')) /\
  (forall d, In d (retained ps) <->
             In (VDict d) ps /\ (0 <? size d)%float = true) /\
  (forall d, truthy (dict_get d "contracts" (VInt 0)) = false ->
             ~ In d (retained ps)).
Proof.
  intros Hfetch Hok. split; [|split].
  - unfold test_positions, positions_try, positions_except, try_except,
      print_section, set_default_type, get_default_type.
    unfold bind, lift, print. simpl.
    rewrite Hfetch. simpl.
    rewrite (open_positions_of_spec ps Hok).
    pose proof (retained_row_ok ps Hok) as Hrows.
    assert (Hsizes : Forall (fun d => (0 <? size d)%float = true) (retained ps)).
    { apply Forall_forall. intros d Hd. apply retained_size in Hd. tauto. }
    destruct (retained ps) as [|d ds].
    + simpl. eexists. reflexivity.
    + rewrite (positions_loop_spec (d :: ds) Hrows Hsizes).
      eexists. reflexivity.
  - apply retained_size.
  - intros d Hfalsy Hin. apply retained_size in Hin. destruct Hin as [_ Hpos].
    unfold coerced in Hpos.
    rewrite (num_field_falsy float_of_str _ _ Hfalsy) in Hpos.
    vm_compute in Hpos. discriminate.
Qed.

End Positions.

(** ** An example of a positions response *)

Definition sample_positions : list pyval :=
  [VDict [("symbol", VStr "BTC/USDT:USDT"); ("side", VStr "long");
          ("contracts", VFloat 2); ("entryPrice", VFloat 1500);
          ("markPrice", VFloat 1493.75); ("unrealizedPnl", VFloat (-12.5));
          ("notional", VFloat (-3000)); ("leverage", VInt 5)];
   VDict [("symbol", VStr "ETH/USDT:USDT"); ("side", VNone);
          ("contracts", VFloat 0); ("unrealizedPnl", VFloat 40)];
   VDict [("symbol", VStr "SOL/USDT:USDT"); ("unrealizedPnl", VFloat 7)];
   VDict [("symbol", VStr "XRP/USDT:USDT"); ("side", VStr "short");
          ("contracts", VStr "2.5"); ("unrealizedPnl", VNone);
          ("notional", VInt 100)]].

Definition positions_only (positions : res pyval) : exchange :=
  table_exchange (fun _ => unavailable) positions unavailable (fun _ => unavailable).

Lemma position_aggregate_witness :
  exists s',
    test_positions sample_float_of_str
      (positions_only (Ok (VList sample_positions))) initial_state =
    (Ok (PosOk
           [[("symbol", VStr "BTC/USDT:USDT"); ("side", VStr "long");
             ("contracts", VFloat 2); ("entryPrice", VFloat 1500);
             ("markPrice", VFloat 1493.75); ("unrealizedPnl", VFloat (-12.5));
             ("notional", VFloat (-3000)); ("leverage", VInt 5)];
            [("symbol", VStr "XRP/USDT:USDT"); ("side", VStr "short");
             ("contracts", VStr "2.5"); ("unrealizedPnl", VNone);
             ("notional", VInt 100)]]
           (-12.5) 3100),
     s').
Proof.
  destruct (position_aggregate sample_float_of_str
              (positions_only (Ok (VList sample_positions)))
              initial_state sample_positions) as [Hrun _].
  - reflexivity.
  - vm_compute. reflexivity.
  - exact Hrun.
Defined.

(* ================================================================== *)
(** * The trades probe (Trade/Fee Aggregator) *)
(* ================================================================== *)

Section Trades.

#[local] Arguments num_field : simpl never.

Variable float_of_str : string -> option float.
Variable set_iter : list string -> list string.
Variable py_sum : list float -> float.

(** The fills a symbol contributes: those fetched for it, none when the
    fetch (or reading its result as a sequence) raises. *)
Definition fills_of (ex : exchange) (dt : string) (since : Z) (symbol : string) : list pyval :=
  match (trades <- fetch_my_trades ex dt symbol since ;; py_iter trades) with
  | Ok fills => fills
  | Raise _ => []
  end.

(** The line printed for a symbol, if any. *)
Definition symbol_lines (ex : exchange) (dt : string) (since : Z) (symbol : string) : list line :=
  match fetch_my_trades ex dt symbol since with
  | Ok trades =>
      match py_iter trades with
      | Ok fills => if truthy trades
                    then [SymbolTrades symbol (List.length fills)]
                    else []
      | Raise _ => []
      end
  | Raise _ => []
  end.

(** The symbols found in the closed orders, none when that fetch raises. *)
Definition discovered (ex : exchange) (since : Z) : list string :=
  match fetch_closed_orders ex "swap" since with
  | Ok closed_orders => symbols_of closed_orders
  | Raise _ => []
  end.

(** Lines 274-285 on the fills gathered. *)
Definition aggregate (all_trades : list pyval) : res trades_result :=
  total_volume <- sum_over py_sum (trade_cost float_of_str) all_trades ;;
  total_fees <- sum_over py_sum (trade_fee float_of_str) all_trades ;;
  Ok {| trades := List.length all_trades;
        volume := total_volume;
        fees := total_fees |}.

Definition cost_of (t : pyval) : float :=
  match trade_cost float_of_str t with Ok x => x | Raise _ => 0%float end.

Definition fee_of (t : pyval) : float :=
  match trade_fee float_of_str t with Ok x => x | Raise _ => 0%float end.

(** The input contract on a fill: a record whose cost and fee cost are
    missing, null or numeric, the fee being a record when present. *)
Definition fill_ok (t : pyval) : bool :=
  is_ok (trade_cost float_of_str t) && is_ok (trade_fee float_of_str t).

Lemma trades_loop_spec ex since symbols :
  forall all_trades s,
    trades_loop ex since symbols all_trades s =
    (Ok (all_trades ++ flat_map (fills_of ex (default_type s) since) symbols),
     {| default_type := default_type s;
        out := out s ++ flat_map (symbol_lines ex (default_type s) since) symbols |}).
Proof.
  induction symbols as [|symbol rest IH]; intros all_trades s.
  - simpl. unfold ret. rewrite !app_nil_r. destruct s; reflexivity.
  - cbn [trades_loop flat_map].
    unfold fills_of at 1, symbol_lines at 1.
    unfold bind at 1, try_except, get_default_type, lift, bind, ret.
    destruct (fetch_my_trades ex (default_type s) symbol since) as [trades|e];
      simpl.
    + destruct (py_iter trades) as [fills|e]; simpl.
      * destruct (truthy trades); simpl; rewrite IH; simpl;
          rewrite <- !app_assoc; reflexivity.
      * rewrite IH. reflexivity.
    + rewrite IH. reflexivity.
Qed.

Lemma terms_spec f ts :
  forallb (fun t => is_ok (f t)) ts = true ->
  terms f ts =
  Ok (map (fun t => match f t with Ok x => x | Raise _ => 0%float end) ts).
Proof.
  induction ts as [|t ts IH]; intros Hok; [reflexivity|].
  simpl in Hok. apply andb_true_iff in Hok. destruct Hok as [Ht Hts].
  simpl. rewrite (IH Hts). destruct (f t); [reflexivity | discriminate].
Qed.

Lemma sum_over_spec f ts :
  forallb (fun t => is_ok (f t)) ts = true ->
  sum_over py_sum f ts =
  Ok (py_sum (map (fun t => match f t with Ok x => x | Raise _ => 0%float end) ts)).
Proof. intros Hok. unfold sum_over. rewrite (terms_spec f ts Hok). reflexivity. Qed.

Lemma test_recent_trades_run ex now days s :
  let since := (now - days * 86400000)%Z in
  fst (test_recent_trades float_of_str set_iter py_sum ex now days s) =
  aggregate (flat_map (fills_of ex "swap" since) (set_iter (discovered ex since))).
Proof.
  intros since. unfold test_recent_trades, discovered. fold since.
  unfold print_section, try_except, set_default_type, get_default_type.
  unfold bind at 1 2 3 4 5, lift at 1, print at 1 2. simpl.
  destruct (fetch_closed_orders ex "swap" since) as [closed|e]; simpl.
  - unfold bind at 1. simpl. unfold bind at 1. rewrite trades_loop_spec. simpl.
    unfold aggregate, bind, lift.
    destruct (sum_over _ _ _); simpl; [|reflexivity].
    destruct (sum_over _ _ _); simpl; reflexivity.
  - unfold bind at 1. simpl. unfold bind at 1. rewrite trades_loop_spec. simpl.
    unfold aggregate, bind, lift.
    destruct (sum_over _ _ _); simpl; [|reflexivity].
    destruct (sum_over _ _ _); simpl; reflexivity.
Qed.

(** C7. The outcome of the probe is the aggregation of the fills of the
    symbols whose fetch succeeded: a symbol whose fetch raises
    contributes no fill and does not end the run, the fills of every
    other symbol are counted, and the number of trades is the number of
    fills fetched. When the fills fetched are within the input contract
    the probe returns its result: the volume is the sum of their costs,
    the fees the sum of their fee costs. *)
Theorem trade_aggregate (ex : exchange) (now days : Z) (s : state) :
  let since := (now - days * 86400000)%Z in
  let all_trades :=
    flat_map (fills_of ex "swap" since) (set_iter (discovered ex since)) in
  fst (test_recent_trades float_of_str set_iter py_sum ex now days s) =
  aggregate all_trades /\
  (forallb fill_ok all_trades = true ->
   fst (test_recent_trades float_of_str set_iter py_sum ex now days s) =
   Ok {| trades := List.length all_trades;
         volume := py_sum (map cost_of all_trades);
         fees := py_sum (map fee_of all_trades) |}) /\
  (forall symbol e,
      fetch_my_trades ex "swap" symbol since = Raise e ->
      fills_of ex "swap" since symbol = []).
Proof.
  intros since all_trades.
  pose proof (test_recent_trades_run ex now days s) as Hrun.
  cbv zeta in Hrun. fold since in Hrun. fold all_trades in Hrun.
  split; [exact Hrun|]. split.
  - intros Hok. rewrite Hrun. unfold aggregate.
    assert (Hcost : forallb (fun t => is_ok (trade_cost float_of_str t)) all_trades = true).
    { rewrite forallb_forall in *. intros t Ht. specialize (Hok t Ht).
      unfold fill_ok in Hok. apply andb_true_iff in Hok. tauto. }
    assert (Hfee : forallb (fun t => is_ok (trade_fee float_of_str t)) all_trades = true).
    { rewrite forallb_forall in *. intros t Ht. specialize (Hok t Ht).
      unfold fill_ok in Hok. apply andb_true_iff in Hok. tauto. }
    rewrite (sum_over_spec _ _ Hcost), (sum_over_spec _ _ Hfee).
    reflexivity.
  - intros symbol e Hfetch. unfold fills_of. rewrite Hfetch. reflexivity.
Qed.

End Trades.

(** ** An example with one failing symbol out of three *)

Definition three_symbols : list (option string) :=
  [Some "BTC/USDT:USDT"; Some "ETH/USDT:USDT"; None;
   Some "BTC/USDT:USDT"; Some "SOL/USDT:USDT"].

Definition fills_table (symbol : string) : res pyval :=
  if String.eqb symbol "BTC/USDT:USDT" then
    Ok (VList [VDict [("cost", VFloat 100.5);
                      ("fee", VDict [("cost", VFloat 0.25)])];
               VDict [("cost", VInt 50);
                      ("fee", VDict [("cost", VNone)])]])
  else if String.eqb symbol "SOL/USDT:USDT" then
    Ok (VList [VDict [("cost", VStr "2.5")]])
  else Raise (ExchangeError "RequestTimeout").

Definition trades_only : exchange :=
  table_exchange (fun _ => unavailable) unavailable (Ok three_symbols) fills_table.

Lemma trade_aggregate_witness :
  fills_of trades_only "swap" (1700000000000 - 7 * 86400000) "ETH/USDT:USDT" = [] /\
  fst (test_recent_trades sample_float_of_str (fun symbols => symbols) float_sum
         trades_only 1700000000000 7 initial_state) =
  Ok {| trades := 3; volume := 153; fees := 0.25 |}.
Proof.
  destruct (trade_aggregate sample_float_of_str (fun symbols => symbols)
              float_sum trades_only 1700000000000 7 initial_state)
    as (_ & Hrun & Hfail).
  split.
  - apply (Hfail "ETH/USDT:USDT" (ExchangeError "RequestTimeout")). reflexivity.
  - apply Hrun. vm_compute. reflexivity.
Defined.

(* ================================================================== *)
(** * The funding probe *)
(* ================================================================== *)

Section Funding.

#[local] Arguments num_field : simpl never.

Variable float_of_str : string -> option float.

(** What the probe reads of the balance of one account type: its
    ['USDT'] entry. *)
Definition usdt_view (ex : exchange) (dt ty : string) : res pyval :=
  balance <- fetch_balance ex dt (Some ty) ;;
  b <- as_dict balance ;;
  Ok (dict_get b "USDT" (VDict [])).

(** The USDT total under an account type when it is strictly positive;
    nothing when it is not, or when the type is unavailable or its
    response cannot be read. *)
Definition positive_usdt (ex : exchange) (dt ty : string) : option float :=
  match (usdt <- usdt_view ex dt ty ;; attr_num_field float_of_str usdt "total") with
  | Ok total => if (0 <? total)%float then Some total else None
  | Raise _ => None
  end.

(** The first account type, in the order given, with a finding. *)
Fixpoint first_positive (probe : string -> option float) (types : list string) : funding_result :=
  match types with
  | [] => FundNone
  | ty :: rest => match probe ty with
                  | Some total => FundFound ty total
                  | None => first_positive probe rest
                  end
  end.

Lemma probe_funding_spec ex ty s :
  exists lines,
    probe_funding float_of_str ex ty s =
    (Ok (positive_usdt ex (default_type s) ty),
     {| default_type := default_type s; out := out s ++ lines |}).
Proof.
  unfold probe_funding, positive_usdt, usdt_view.
  unfold try_except, bind, get_default_type, lift, print, ret. simpl.
  destruct (fetch_balance ex (default_type s) (Some ty)) as [balance|e]; simpl;
    [|eexists; reflexivity].
  destruct (as_dict balance) as [b|e]; simpl; [|eexists; reflexivity].
  destruct (attr_num_field float_of_str (dict_get b "USDT" (VDict [])) "total")
    as [total|e]; simpl; [|eexists; reflexivity].
  destruct (0 <? total)%float; simpl; [eexists; reflexivity|].
  exists []. rewrite app_nil_r. destruct s; reflexivity.
Qed.

Lemma funding_loop_spec ex types :
  forall s,
  exists lines,
    funding_loop float_of_str ex types s =
    (Ok (first_positive (positive_usdt ex (default_type s)) types),
     {| default_type := default_type s; out := out s ++ lines |}).
Proof.
  induction types as [|ty rest IH]; intros s.
  - simpl. unfold bind, print, ret. simpl. eexists. reflexivity.
  - cbn [funding_loop first_positive]. unfold bind at 1.
    destruct (probe_funding_spec ex ty s) as (lines & ->).
    destruct (positive_usdt ex (default_type s) ty) as [total|].
    + unfold ret. eexists. reflexivity.
    + destruct (IH {| default_type := default_type s; out := out s ++ lines |})
        as (lines' & ->).
      simpl. rewrite <- app_assoc. eexists. reflexivity.
Qed.

Lemma first_positive_found probe types ty total :
  first_positive probe types = FundFound ty total ->
  exists earlier later,
    types = earlier ++ ty :: later /\
    probe ty = Some total /\
    Forall (fun t => probe t = None) earlier.
Proof.
  induction types as [|t rest IH]; simpl; [discriminate|].
  destruct (probe t) as [x|] eqn:Ht.
  - intros H. inversion H; subst.
    exists [], rest. repeat split; [exact Ht | constructor].
  - intros H. destruct (IH H) as (earlier & later & -> & Hty & Hearlier).
    exists (t :: earlier), later. repeat split; [exact Hty|].
    constructor; assumption.
Qed.

Lemma first_positive_none probe types :
  first_positive probe types = FundNone ->
  Forall (fun t => probe t = None) types.
Proof.
  induction types as [|t rest IH]; simpl; [constructor|].
  destruct (probe t) eqn:Ht; [discriminate|].
  intros H. constructor; auto.
Qed.

Lemma positive_usdt_positive ex dt ty total :
  positive_usdt ex dt ty = Some total -> (0 <? total)%float = true.
Proof.
  unfold positive_usdt.
  destruct (usdt <- usdt_view ex dt ty;; attr_num_field float_of_str usdt "total")
    as [x|]; [|discriminate].
  destruct (0 <? x)%float eqn:E; [|discriminate].
  intros H. inversion H; subst. exact E.
Qed.

Lemma first_positive_ext probe probe' types :
  (forall ty, probe ty = probe' ty) ->
  first_positive probe types = first_positive probe' types.
Proof.
  intros Hext. induction types as [|t rest IH]; [reflexivity|].
  simpl. rewrite Hext, IH. reflexivity.
Qed.

Lemma positive_usdt_unavailable ex dt ty e :
  fetch_balance ex dt (Some ty) = Raise e ->
  positive_usdt ex dt ty = None.
Proof.
  intros Hfetch. unfold positive_usdt, usdt_view. rewrite Hfetch. reflexivity.
Qed.

Lemma positive_usdt_of_float ex dt ty b usdt x :
  fetch_balance ex dt (Some ty) = Ok (VDict b) ->
  dict_get b "USDT" (VDict []) = VDict usdt ->
  dict_get usdt "total" (VInt 0) = VFloat x ->
  positive_usdt ex dt ty = if (0 <? x)%float then Some x else None.
Proof.
  intros Hfetch Husdt Htotal.
  unfold positive_usdt, usdt_view. rewrite Hfetch. simpl. rewrite Husdt.
  simpl. unfold num_field, py_or. rewrite Htotal. simpl.
  destruct (x =? 0)%float eqn:Hzero; simpl.
  - rewrite (eqb_not_ltb _ _ Hzero). reflexivity.
  - reflexivity.
Qed.

Lemma positive_usdt_of_falsy ex dt ty b usdt :
  fetch_balance ex dt (Some ty) = Ok (VDict b) ->
  dict_get b "USDT" (VDict []) = VDict usdt ->
  truthy (dict_get usdt "total" (VInt 0)) = false ->
  positive_usdt ex dt ty = None.
Proof.
  intros Hfetch Husdt Hfalsy.
  unfold positive_usdt, usdt_view. rewrite Hfetch. simpl. rewrite Husdt.
  simpl. rewrite (num_field_falsy float_of_str _ _ Hfalsy). reflexivity.
Qed.

(** C9. The funding probe never raises. It tries 'funding', 'earn' and
    'savings' in that order and returns the USDT total of the first type
    under which that total is strictly positive, with the type; the
    types before it had no positive USDT total (unavailable types
    included), and the types after it are not looked at. When no type has
    one it returns the result whose total reads 0. The total of a type is
    read off its response: nothing for a type whose request raises, the
    number under ['USDT']['total'] when it is strictly positive, nothing
    when it is zero, null or missing. The result depends on the balances
    through their USDT entry only, so USDC and USD holdings never
    count. *)
Theorem funding_first_positive_usdt (ex : exchange) (s : state) :
  funding_types = ["funding"; "earn"; "savings"] /\
  (forall ty e,
      fetch_balance ex (default_type s) (Some ty) = Raise e ->
      positive_usdt ex (default_type s) ty = None) /\
  (forall ty b usdt x,
      fetch_balance ex (default_type s) (Some ty) = Ok (VDict b) ->
      dict_get b "USDT" (VDict []) = VDict usdt ->
      dict_get usdt "total" (VInt 0) = VFloat x ->
      positive_usdt ex (default_type s) ty =
      if (0 <? x)%float then Some x else None) /\
  (forall ty b usdt,
      fetch_balance ex (default_type s) (Some ty) = Ok (VDict b) ->
      dict_get b "USDT" (VDict []) = VDict usdt ->
      truthy (dict_get usdt "total" (VInt 0)) = false ->
      positive_usdt ex (default_type s) ty = None) /\
  exists r s',
    test_funding_balance float_of_str ex s = (Ok r, s') /\
    r = first_positive (positive_usdt ex (default_type s)) funding_types /\
    match r with
    | FundFound ty total =>
        funding_total r = total /\
        (0 <? total)%float = true /\
        exists earlier later,
          funding_types = earlier ++ ty :: later /\
          positive_usdt ex (default_type s) ty = Some total /\
          Forall (fun t => positive_usdt ex (default_type s) t = None) earlier
    | FundNone =>
        funding_total r = 0%float /\
        Forall (fun t => positive_usdt ex (default_type s) t = None) funding_types
    end /\
    (forall ex',
        (forall ty, usdt_view ex' (default_type s) ty =
                    usdt_view ex (default_type s) ty) ->
        fst (test_funding_balance float_of_str ex' s) = Ok r).
Proof.
  split; [reflexivity|].
  split; [intros ty e; apply positive_usdt_unavailable|].
  split; [intros ty b usdt x; apply positive_usdt_of_float|].
  split; [intros ty b usdt; apply positive_usdt_of_falsy|].
  assert (Hrun : forall ex0,
             fst (test_funding_balance float_of_str ex0 s) =
             Ok (first_positive (positive_usdt ex0 (default_type s)) funding_types)).
  { intros ex0. unfold test_funding_balance, print_section.
    unfold bind at 1, print at 1.
    destruct (funding_loop_spec ex0 funding_types
                {| default_type := default_type s;
                   out := out s ++ [Header "FUNDING/EARN BALANCE"] |})
      as (lines & ->).
    reflexivity. }
  pose proof (Hrun ex) as Hex.
  destruct (test_funding_balance float_of_str ex s) as [r0 s'] eqn:Htest.
  cbn [fst] in Hex. subst r0.
  eexists. exists s'. split; [reflexivity|]. split; [reflexivity|]. split.
  - destruct (first_positive (positive_usdt ex (default_type s)) funding_types)
      as [ty total|] eqn:Hfirst.
    + destruct (first_positive_found _ _ _ _ Hfirst)
        as (earlier & later & Htypes & Hty & Hearlier).
      cbv beta iota.
      split; [reflexivity|].
      split; [eapply positive_usdt_positive; exact Hty|].
      exists earlier, later. repeat split; assumption.
    + cbv beta iota.
      split; [reflexivity|]. apply first_positive_none. exact Hfirst.
  - intros ex' Hview. rewrite Hrun. f_equal.
    apply first_positive_ext. intros ty. unfold positive_usdt.
    rewrite Hview. reflexivity.
Qed.

End Funding.

(** ** An example: USDC under 'funding', USDT under 'earn' and 'savings' *)

Definition funding_table (ty : option string) : res pyval :=
  match ty with
  | Some "funding" =>
      Ok (VDict [("USDC", holding (VFloat 500) (VFloat 500) (VFloat 0));
                 ("USDT", holding (VFloat 0) (VFloat 0) (VFloat 0))])
  | Some "earn" => Ok (VDict [("USDT", holding (VFloat 20) VNone VNone)])
  | Some "savings" => Ok (VDict [("USDT", holding (VFloat 99) VNone VNone)])
  | _ => unavailable
  end.

Lemma funding_first_positive_usdt_witness :
  fst (test_funding_balance sample_float_of_str
         (table_exchange funding_table unavailable unavailable
                         (fun _ => unavailable))
         initial_state) = Ok (FundFound "earn" 20) /\
  positive_usdt sample_float_of_str
    (table_exchange funding_table unavailable unavailable (fun _ => unavailable))
    "spot" "funding" = None /\
  positive_usdt sample_float_of_str
    (table_exchange funding_table unavailable unavailable (fun _ => unavailable))
    "spot" "savings" = Some 99%float.
Proof.
  destruct (funding_first_positive_usdt sample_float_of_str
              (table_exchange funding_table unavailable unavailable
                              (fun _ => unavailable))
              initial_state)
    as (_ & _ & Hfloat & _ & r & s' & Hrun & Hr & _).
  split; [|split].
  - rewrite Hrun. cbn [fst]. rewrite Hr. vm_compute. reflexivity.
  - apply (Hfloat "funding"
             [("USDC", holding (VFloat 500) (VFloat 500) (VFloat 0));
              ("USDT", holding (VFloat 0) (VFloat 0) (VFloat 0))]
             [("total", VFloat 0); ("free", VFloat 0); ("used", VFloat 0)]
             0%float); reflexivity.
  - apply (Hfloat "savings"
             [("USDT", holding (VFloat 99) VNone VNone)]
             [("total", VFloat 99); ("free", VNone); ("used", VNone)]
             99%float); reflexivity.
Defined.

Example funding_first_match :
  fst (test_funding_balance sample_float_of_str
         (table_exchange funding_table unavailable unavailable
                         (fun _ => unavailable))
         initial_state) =
  Ok (FundFound "earn" 20).
Proof. vm_compute. reflexivity. Qed.

(* ================================================================== *)
(** * The run of [main] *)
(* ================================================================== *)

(** A line that shows the account's total. *)
Definition shows_total (l : line) : bool :=
  match l with
  | Amount label _ =>
      String.eqb label "TOTAL EQUITY" || String.eqb label "ESTIMATED TOTAL"
  | _ => false
  end.

(** A computation that prints no total, whatever its outcome. *)
Definition quiet {A} (m : M A) : Prop :=
  forall s, exists lines,
    out (snd (m s)) = out s ++ lines /\ existsb shows_total lines = false.

(** A computation that raises, whatever the state. *)
Definition raises {A} (m : M A) : Prop :=
  forall s, exists e, fst (m s) = Raise e.

(** A computation that returns, whatever the state. *)
Definition returns {A} (m : M A) : Prop :=
  forall s, exists a, fst (m s) = Ok a.

Lemma quiet_ret {A} (a : A) : quiet (ret a).
Proof. intros s. exists []. simpl. rewrite app_nil_r. split; reflexivity. Qed.

Lemma quiet_lift {A} (r : res A) : quiet (lift r).
Proof. intros s. exists []. simpl. rewrite app_nil_r. split; reflexivity. Qed.

Lemma quiet_print l : shows_total l = false -> quiet (print l).
Proof. intros Hl s. exists [l]. simpl. rewrite Hl. split; reflexivity. Qed.

Lemma quiet_set_default_type ty : quiet (set_default_type ty).
Proof. intros s. exists []. simpl. rewrite app_nil_r. split; reflexivity. Qed.

Lemma quiet_get_default_type : quiet get_default_type.
Proof. intros s. exists []. simpl. rewrite app_nil_r. split; reflexivity. Qed.

Lemma quiet_bind {A B} (m : M A) (k : A -> M B) :
  quiet m -> (forall a, quiet (k a)) -> quiet (bind m k).
Proof.
  intros Hm Hk s. unfold bind.
  destruct (Hm s) as (lines & Hout & Hquiet).
  destruct (m s) as [[a|e] s1]; simpl in *.
  - destruct (Hk a s1) as (lines' & Hout' & Hquiet').
    exists (lines ++ lines'). rewrite Hout', Hout, <- app_assoc.
    split; [reflexivity|].
    rewrite existsb_app, Hquiet, Hquiet'. reflexivity.
  - exists lines. split; assumption.
Qed.

Lemma quiet_try_except {A} (body : M A) (handler : exn -> M A) :
  quiet body -> (forall e, quiet (handler e)) -> quiet (try_except body handler).
Proof.
  intros Hbody Hhandler s. unfold try_except.
  destruct (Hbody s) as (lines & Hout & Hquiet).
  destruct (body s) as [[a|e] s1]; simpl in *.
  - exists lines. split; assumption.
  - destruct (Hhandler e s1) as (lines' & Hout' & Hquiet').
    exists (lines ++ lines'). rewrite Hout', Hout, <- app_assoc.
    split; [reflexivity|].
    rewrite existsb_app, Hquiet, Hquiet'. reflexivity.
Qed.

Lemma quiet_for_each {A} (xs : list A) (body : A -> M unit) :
  (forall x, quiet (body x)) -> quiet (for_each xs body).
Proof.
  intros Hbody. induction xs as [|x xs IH]; simpl.
  - apply quiet_ret.
  - apply quiet_bind; [apply Hbody | intros _; exact IH].
Qed.

Lemma raises_bind_right {A B} (m : M A) (k : A -> M B) :
  (forall a, raises (k a)) -> raises (bind m k).
Proof.
  intros Hk s. unfold bind.
  destruct (m s) as [[a|e] s1].
  - apply Hk.
  - exists e. reflexivity.
Qed.

Lemma raises_bind_left {A B} (m : M A) (k : A -> M B) :
  raises m -> raises (bind m k).
Proof.
  intros Hm s. unfold bind. destruct (Hm s) as (e & He).
  destruct (m s) as [[a|e'] s1]; simpl in *; [discriminate|].
  exists e'. reflexivity.
Qed.

Lemma returns_try_except {A} (body : M A) (handler : exn -> M A) :
  (forall e, returns (handler e)) -> returns (try_except body handler).
Proof.
  intros Hhandler s. unfold try_except.
  destruct (body s) as [[a|e] s1].
  - exists a. reflexivity.
  - apply Hhandler.
Qed.

Lemma returns_bind {A B} (m : M A) (k : A -> M B) :
  returns m -> (forall a, returns (k a)) -> returns (bind m k).
Proof.
  intros Hm Hk s. unfold bind. destruct (Hm s) as (a & Ha).
  destruct (m s) as [[a'|e] s1]; simpl in *; [|discriminate].
  apply Hk.
Qed.

Lemma returns_print l : returns (print l).
Proof. intros s. exists tt. reflexivity. Qed.

Lemma returns_ret {A} (a : A) : returns (ret a).
Proof. intros s. exists a. reflexivity. Qed.

Lemma returns_set_default_type ty : returns (set_default_type ty).
Proof. intros s. exists tt. reflexivity. Qed.

Create HintDb quiet.
#[local] Hint Resolve quiet_ret quiet_lift quiet_set_default_type
  quiet_get_default_type : quiet.

(** One step of a proof that a computation is quiet, by its shape. *)
Ltac quiet_step :=
  first
    [ apply quiet_ret
    | apply quiet_lift
    | apply quiet_set_default_type
    | apply quiet_get_default_type
    | apply quiet_print; reflexivity
    | apply quiet_bind; [|intros]
    | apply quiet_try_except; [|intros]
    | apply quiet_for_each; intros
    | match goal with
      | |- quiet (let '(_, _) := ?p in _) => destruct p
      | |- quiet (match ?x with _ => _ end) => destruct x
      end ].

Ltac quiet_auto := repeat quiet_step; auto with quiet.

Section Run.

Variable float_of_str : string -> option float.
Variable set_iter : list string -> list string.
Variable py_sum : list float -> float.

Lemma quiet_test_spot_balance ex : quiet (test_spot_balance float_of_str ex).
Proof.
  unfold test_spot_balance, spot_try, spot_except, print_section, print_asset.
  quiet_auto.
Qed.

Lemma quiet_test_swap_balance ex : quiet (test_swap_balance float_of_str ex).
Proof.
  unfold test_swap_balance, swap_try, swap_except, print_section,
    print_if_positive.
  quiet_auto.
Qed.

Lemma quiet_positions_loop ds :
  forall pnl notional, quiet (positions_loop float_of_str ds pnl notional).
Proof.
  induction ds as [|d ds IH]; intros pnl notional; simpl.
  - apply quiet_ret.
  - quiet_auto.
Qed.

Lemma quiet_test_positions ex : quiet (test_positions float_of_str ex).
Proof.
  unfold test_positions, positions_try, positions_except, print_section.
  quiet_auto; try apply quiet_positions_loop.
Qed.

Lemma quiet_test_market_types ex : quiet (test_market_types set_iter ex).
Proof. unfold test_market_types, print_section. quiet_auto. Qed.

Lemma quiet_funding_loop ex types : quiet (funding_loop float_of_str ex types).
Proof.
  induction types as [|ty rest IH]; simpl.
  - quiet_auto.
  - unfold probe_funding. quiet_auto.
Qed.

Lemma quiet_test_funding_balance ex : quiet (test_funding_balance float_of_str ex).
Proof.
  unfold test_funding_balance, print_section.
  quiet_auto; try apply quiet_funding_loop.
Qed.

Lemma quiet_trades_loop ex since symbols :
  forall all_trades, quiet (trades_loop ex since symbols all_trades).
Proof.
  induction symbols as [|symbol rest IH]; intros all_trades; simpl.
  - apply quiet_ret.
  - quiet_auto.
Qed.

Lemma quiet_test_recent_trades ex now days :
  quiet (test_recent_trades float_of_str set_iter py_sum ex now days).
Proof.
  unfold test_recent_trades, print_section.
  quiet_auto; try apply quiet_trades_loop.
Qed.

Lemma summary_run spot_result swap_result positions_result funding_result s :
  summary spot_result swap_result positions_result funding_result s =
  (Raise ValueError,
   {| default_type := default_type s;
      out := out s ++
             [Header "SUMMARY - TOTAL ACCOUNT VALUE";
              Amount "Spot Stablecoins" (spot_usdt_equiv spot_result);
              Amount "Swap/Futures Equity" (swap_total swap_result);
              Amount "Funding/Earn" (funding_total funding_result)] |}).
Proof.
  unfold summary, print_section, bind, lift, print. simpl.
  rewrite <- !app_assoc. reflexivity.
Qed.

Lemma quiet_summary spot_result swap_result positions_result funding_result :
  quiet (summary spot_result swap_result positions_result funding_result).
Proof.
  intros s. rewrite summary_run. simpl. eexists. split; reflexivity.
Qed.

Lemma raises_summary spot_result swap_result positions_result funding_result :
  raises (summary spot_result swap_result positions_result funding_result).
Proof. intros s. rewrite summary_run. exists ValueError. reflexivity. Qed.

Lemma quiet_diagnosis market_types spot_result :
  quiet (diagnosis market_types spot_result).
Proof. unfold diagnosis, print_section. quiet_auto. Qed.

Lemma quiet_main ex now : quiet (main float_of_str set_iter py_sum ex now).
Proof.
  unfold main.
  apply quiet_bind; [apply quiet_print; reflexivity | intros _].
  apply quiet_bind; [apply quiet_print; reflexivity | intros _].
  apply quiet_bind; [apply quiet_test_market_types | intros market_types].
  apply quiet_bind; [apply quiet_test_spot_balance | intros spot_result].
  apply quiet_bind; [apply quiet_test_swap_balance | intros swap_result].
  apply quiet_bind; [apply quiet_test_positions | intros positions_result].
  apply quiet_bind; [apply quiet_test_funding_balance | intros funding_result].
  apply quiet_bind; [apply quiet_test_recent_trades | intros trades_result].
  apply quiet_bind; [apply quiet_summary | intros _].
  apply quiet_diagnosis.
Qed.

Lemma raises_main ex now : raises (main float_of_str set_iter py_sum ex now).
Proof.
  unfold main.
  do 8 (apply raises_bind_right; intros).
  apply raises_bind_left. apply raises_summary.
Qed.

(** A probe whose [try] body raises returns its error result. *)
Lemma returns_test_spot_balance ex : returns (test_spot_balance float_of_str ex).
Proof.
  unfold test_spot_balance, print_section.
  apply returns_bind; [apply returns_print | intros _].
  apply returns_bind; [apply returns_set_default_type | intros _].
  apply returns_try_except. intros e. unfold spot_except.
  apply returns_bind; [apply returns_print | intros _; apply returns_ret].
Qed.

Lemma returns_test_swap_balance ex : returns (test_swap_balance float_of_str ex).
Proof.
  unfold test_swap_balance, print_section.
  apply returns_bind; [apply returns_print | intros _].
  apply returns_bind; [apply returns_set_default_type | intros _].
  apply returns_try_except. intros e. unfold swap_except.
  apply returns_bind; [apply returns_print | intros _; apply returns_ret].
Qed.

Lemma returns_test_positions ex : returns (test_positions float_of_str ex).
Proof.
  unfold test_positions, print_section.
  apply returns_bind; [apply returns_print | intros _].
  apply returns_bind; [apply returns_set_default_type | intros _].
  apply returns_try_except. intros e. unfold positions_except.
  apply returns_bind; [apply returns_print | intros _; apply returns_ret].
Qed.

Lemma spot_failure_reads_zero ex s e s1 :
  spot_try float_of_str ex
    {| default_type := "spot"; out := out s ++ [Header "SPOT BALANCE"] |} =
  (Raise e, s1) ->
  exists r, fst (test_spot_balance float_of_str ex s) = Ok r /\
            r = SpotErr (exn_str e) /\ spot_usdt_equiv r = 0%float.
Proof.
  intros Hbody. unfold test_spot_balance, print_section, bind, print,
    set_default_type, try_except. simpl. rewrite Hbody.
  eexists. repeat split.
Qed.

Lemma swap_failure_reads_zero ex s e s1 :
  swap_try float_of_str ex
    {| default_type := "swap"; out := out s ++ [Header "SWAP/FUTURES BALANCE"] |} =
  (Raise e, s1) ->
  exists r, fst (test_swap_balance float_of_str ex s) = Ok r /\
            r = SwapErr (exn_str e) /\ swap_total r = 0%float.
Proof.
  intros Hbody. unfold test_swap_balance, print_section, bind, print,
    set_default_type, try_except. simpl. rewrite Hbody.
  eexists. repeat split.
Qed.

Lemma positions_failure_reads_zero ex s e s1 :
  positions_try float_of_str ex
    {| default_type := "swap"; out := out s ++ [Header "OPEN POSITIONS"] |} =
  (Raise e, s1) ->
  exists r, fst (test_positions float_of_str ex s) = Ok r /\
            r = PosErr (exn_str e) /\ positions_unrealized_pnl r = 0%float.
Proof.
  intros Hbody. unfold test_positions, print_section, bind, print,
    set_default_type, try_except. simpl. rewrite Hbody.
  eexists. repeat split.
Qed.

(** C10, on the script as written. The three probes always return:
    whatever is raised inside them is caught there. The run of [main]
    nevertheless always ends in an exception and prints neither TOTAL
    EQUITY nor ESTIMATED TOTAL: the summary formats the rendered
    unrealized PnL, a [str], with the specification [>+15], and a sign
    is refused for a [str]. *)
Theorem main_never_reports_total (ex : exchange) (now : Z) (s : state) :
  returns (test_spot_balance float_of_str ex) /\
  returns (test_swap_balance float_of_str ex) /\
  returns (test_positions float_of_str ex) /\
  format_str aligned_signed = Raise ValueError /\
  exists e lines,
    fst (main float_of_str set_iter py_sum ex now s) = Raise e /\
    out (snd (main float_of_str set_iter py_sum ex now s)) = out s ++ lines /\
    existsb shows_total lines = false.
Proof.
  split; [apply returns_test_spot_balance|].
  split; [apply returns_test_swap_balance|].
  split; [apply returns_test_positions|].
  split; [reflexivity|].
  destruct (raises_main ex now s) as (e & He).
  destruct (quiet_main ex now s) as (lines & Hout & Hquiet).
  exists e, lines. repeat split; assumption.
Qed.

End Run.

(** ** A run on ordinary responses *)

Definition swap_balance : dict :=
  [("info", VDict []);
   ("USDT", holding (VFloat 700) (VFloat 650) (VFloat 50));
   ("free", VDict [("USDT", VFloat 650)])].

Definition ordinary_balances (ty : option string) : res pyval :=
  match ty with
  | None => Ok (VDict swap_balance)
  | Some "spot" => Ok (VDict mixed_balance)
  | _ => funding_table ty
  end.

Definition ordinary_exchange : exchange :=
  table_exchange ordinary_balances (Ok (VList sample_positions))
                 (Ok three_symbols) fills_table.

Definition amounts (ls : list line) : list line :=
  filter (fun l => match l with Amount _ _ => true | _ => false end) ls.

(** With every account type answering, the four probes give 103, 700,
    20 and -12.5, and the run ends in [ValueError] after the first three
    amounts of the summary. *)
Example main_on_ordinary_responses :
  let run := main sample_float_of_str (fun symbols => symbols) float_sum
                  ordinary_exchange 1700000000000 initial_state in
  fst run = Raise ValueError /\
  existsb shows_total (out (snd run)) = false /\
  skipn 9 (amounts (out (snd run))) =
  [Amount "Spot Stablecoins" 103;
   Amount "Swap/Futures Equity" 700;
   Amount "Funding/Earn" 20].
Proof. repeat split; vm_compute; reflexivity. Qed.

(* ================================================================== *)
(** * Further properties of the spot probe *)
(* ================================================================== *)

(** An entry of the raw mapping the loop reads: a record under a key
    that is not reserved. *)
Definition is_record_entry (kv : string * pyval) : bool :=
  negb (str_in (fst kv) reserved_keys) &&
  match snd kv with VDict _ => true | _ => false end.

Section SpotEntries.

#[local] Arguments str_in : simpl never.
#[local] Arguments num_field : simpl never.

Variable float_of_str : string -> option float.

Lemma spot_loop_record_entries items :
  forall total_usdt_equiv assets,
    spot_loop float_of_str (filter is_record_entry items) total_usdt_equiv assets =
    spot_loop float_of_str items total_usdt_equiv assets.
Proof.
  induction items as [|[currency data] rest IH]; intros u acc; [reflexivity|].
  cbn [filter]. unfold is_record_entry at 1. cbn [fst snd].
  destruct (str_in currency reserved_keys) eqn:Hres.
  - cbn [negb andb]. rewrite IH. simpl. rewrite Hres. reflexivity.
  - destruct data; cbn [negb andb];
      try (rewrite IH; simpl; rewrite Hres; reflexivity).
    simpl. rewrite Hres.
    destruct (num_field float_of_str d "total") as [t|]; [|reflexivity].
    destruct (num_field float_of_str d "free") as [f|]; [|reflexivity].
    destruct (num_field float_of_str d "used") as [u0|]; [|reflexivity].
    simpl. destruct (0 <? t)%float; apply IH.
Qed.

(** X1. Entries under reserved keys and entries that are not records
    are never read: dropping them from the response changes neither the
    subtotal nor the balances returned, nor whether the probe ends in its
    error result, whatever those entries hold. *)
Theorem spot_reads_record_entries_only (ex ex' : exchange) (s : state) (items : dict) :
  fetch_balance ex "spot" (Some "spot") = Ok (VDict items) ->
  fetch_balance ex' "spot" (Some "spot") =
  Ok (VDict (filter is_record_entry items)) ->
  exists r r',
    fst (test_spot_balance float_of_str ex s) = Ok r /\
    fst (test_spot_balance float_of_str ex' s) = Ok r' /\
    spot_usdt_equiv r = spot_usdt_equiv r' /\
    spot_assets r = spot_assets r' /\
    (forall error, r = SpotErr error <-> r' = SpotErr error) /\
    asset_rows (out (snd (test_spot_balance float_of_str ex s))) =
    asset_rows (out (snd (test_spot_balance float_of_str ex' s))).
Proof.
  intros Hfetch Hfetch'.
  rewrite !test_spot_balance_run. unfold spot_outcome.
  rewrite Hfetch, Hfetch'. simpl.
  rewrite spot_loop_record_entries.
  destruct (spot_loop float_of_str items 0%float []) as [[u assets]|e]; simpl.
  - eexists. eexists. repeat split; intros H; discriminate H.
  - eexists. eexists. repeat split; intros H; exact H.
Qed.

(** X2. When the spot balance cannot be fetched, or the response is not
    a mapping, the probe returns its error result carrying the text of
    the exception, and prints the section header and the error only. *)
Theorem spot_unavailable (ex : exchange) (s : state) (e : exn) :
  (balance <- fetch_balance ex "spot" (Some "spot") ;; as_dict balance) = Raise e ->
  test_spot_balance float_of_str ex s =
  (Ok (SpotErr (exn_str e)),
   {| default_type := "spot";
      out := out s ++ [Header "SPOT BALANCE";
                       Failure "Error fetching spot balance" e] |}).
Proof.
  intros Hraise. rewrite test_spot_balance_run. unfold spot_outcome.
  destruct (fetch_balance ex "spot" (Some "spot")) as [balance|e0]; simpl in *.
  - destruct (as_dict balance) as [items|e0]; simpl in *; [discriminate|].
    inversion Hraise; subst. reflexivity.
  - inversion Hraise; subst. reflexivity.
Qed.

End SpotEntries.

(** A response with metadata that would not pass as a record, and a
    currency whose entry is a bare number. *)
Definition noisy_balance : dict :=
  [("info", VStr "raw");
   ("total", VDict [("total", VStr "not a number")]);
   ("USDT", holding (VFloat 12.5) (VFloat 12.5) VNone);
   ("BTC", VFloat 3);
   ("datetime", VNone)].

Lemma spot_reads_record_entries_only_witness :
  exists r r',
    fst (test_spot_balance sample_float_of_str
           (spot_only (Ok (VDict noisy_balance))) initial_state) = Ok r /\
    fst (test_spot_balance sample_float_of_str
           (spot_only (Ok (VDict [("USDT", holding (VFloat 12.5) (VFloat 12.5) VNone)])))
           initial_state) = Ok r' /\
    spot_usdt_equiv r = spot_usdt_equiv r' /\
    spot_assets r = spot_assets r'.
Proof.
  destruct (spot_reads_record_entries_only sample_float_of_str
              (spot_only (Ok (VDict noisy_balance)))
              (spot_only (Ok (VDict [("USDT", holding (VFloat 12.5) (VFloat 12.5) VNone)])))
              initial_state noisy_balance)
    as (r & r' & H1 & H2 & H3 & H4 & _).
  - reflexivity.
  - reflexivity.
  - exists r, r'. repeat split; assumption.
Defined.

Lemma spot_unavailable_witness :
  test_spot_balance sample_float_of_str (spot_only (Ok VNone)) initial_state =
  (Ok (SpotErr "AttributeError"),
   {| default_type := "spot";
      out := [Header "SPOT BALANCE";
              Failure "Error fetching spot balance" AttributeError] |}).
Proof.
  apply (spot_unavailable sample_float_of_str (spot_only (Ok VNone))
           initial_state AttributeError).
  reflexivity.
Defined.

(* ================================================================== *)
(** * The swap probe *)
(* ================================================================== *)

Section Swap.

#[local] Arguments num_field : simpl never.
#[local] Arguments attr_num_field : simpl never.

Variable float_of_str : string -> option float.

(** [balance.get(currency, {})] *)
Definition swap_entry (b : dict) (currency : string) : pyval :=
  dict_get b currency (VDict []).

(** The five coercions of lines 130-135, in their order. *)
Definition swap_fields (usdt usdc usd : pyval) : res (float * float * float * float * float) :=
  usdt_total <- attr_num_field float_of_str usdt "total" ;;
  usdt_free <- attr_num_field float_of_str usdt "free" ;;
  usdt_used <- attr_num_field float_of_str usdt "used" ;;
  usdc_total <- attr_num_field float_of_str usdc "total" ;;
  usd_total <- attr_num_field float_of_str usd "total" ;;
  Ok (usdt_total, usdt_free, usdt_used, usdc_total, usd_total).

(** What the body of the [try] computes before it prints. *)
Definition swap_outcome (ex : exchange) : res (pyval * (float * float * float * float * float)) :=
  balance <- fetch_balance ex "swap" None ;;
  b <- as_dict balance ;;
  fields <- swap_fields (swap_entry b "USDT") (swap_entry b "USDC") (swap_entry b "USD") ;;
  Ok (balance, fields).

Definition swap_result_of (outcome : res (pyval * (float * float * float * float * float))) : swap_result :=
  match outcome with
  | Ok (balance, (usdt_total, usdt_free, _, usdc_total, usd_total)) =>
      SwapOk usdt_total usdt_free usdc_total
             (usdt_total + usdc_total + usd_total)%float balance
  | Raise e => SwapErr (exn_str e)
  end.

Lemma test_swap_balance_result ex s :
  fst (test_swap_balance float_of_str ex s) = Ok (swap_result_of (swap_outcome ex)).
Proof.
  unfold test_swap_balance, swap_try, swap_except, swap_outcome, swap_fields,
    swap_entry, print_section, try_except, set_default_type, get_default_type,
    print_if_positive.
  unfold bind, lift, print, ret. simpl.
  destruct (fetch_balance ex "swap" None) as [balance|e]; simpl; [|reflexivity].
  destruct (as_dict balance) as [b|e]; simpl; [|reflexivity].
  destruct (attr_num_field float_of_str (dict_get b "USDT" (VDict [])) "total");
    simpl; [|reflexivity].
  destruct (attr_num_field float_of_str (dict_get b "USDT" (VDict [])) "free");
    simpl; [|reflexivity].
  destruct (attr_num_field float_of_str (dict_get b "USDT" (VDict [])) "used");
    simpl; [|reflexivity].
  destruct (attr_num_field float_of_str (dict_get b "USDC" (VDict [])) "total")
    as [usdc_total|]; simpl; [|reflexivity].
  destruct (attr_num_field float_of_str (dict_get b "USD" (VDict [])) "total")
    as [usd_total|]; simpl; [|reflexivity].
  destruct (0 <? usdc_total)%float, (0 <? usd_total)%float; reflexivity.
Qed.

(** The value a field of a currency's entry is coerced to. *)
Definition swap_field (b : dict) (currency field : string) : float :=
  match attr_num_field float_of_str (swap_entry b currency) field with
  | Ok x => x
  | Raise _ => 0%float
  end.

(** The input contract of the swap probe: the three entries are absent
    or records, and the five fields read are missing, null or numeric. *)
Definition swap_ok (b : dict) : bool :=
  is_ok (swap_fields (swap_entry b "USDT") (swap_entry b "USDC") (swap_entry b "USD")).

Definition is_record (v : pyval) : bool :=
  match v with VDict _ => true | _ => false end.

(** X3. For a swap response within the input contract the probe returns
    USDT total + USDC total + USD total, added in that order, together
    with the USDT total, the USDT free amount and the USDC total; a
    currency without an entry counts as 0. *)
Theorem swap_total_rule (ex : exchange) (s : state) (b : dict) :
  fetch_balance ex "swap" None = Ok (VDict b) ->
  swap_ok b = true ->
  fst (test_swap_balance float_of_str ex s) =
  Ok (SwapOk (swap_field b "USDT" "total") (swap_field b "USDT" "free")
             (swap_field b "USDC" "total")
             (swap_field b "USDT" "total" + swap_field b "USDC" "total" +
              swap_field b "USD" "total")%float
             (VDict b)) /\
  (forall currency field,
      swap_entry b currency = VDict [] -> swap_field b currency field = 0%float).
Proof.
  intros Hfetch Hok. split.
  - rewrite test_swap_balance_result. unfold swap_outcome.
    rewrite Hfetch. simpl.
    unfold swap_ok, swap_fields in Hok. unfold swap_fields, swap_field.
    destruct (attr_num_field float_of_str (swap_entry b "USDT") "total");
      [|discriminate].
    destruct (attr_num_field float_of_str (swap_entry b "USDT") "free");
      [|discriminate].
    destruct (attr_num_field float_of_str (swap_entry b "USDT") "used");
      [|discriminate].
    destruct (attr_num_field float_of_str (swap_entry b "USDC") "total");
      [|discriminate].
    destruct (attr_num_field float_of_str (swap_entry b "USD") "total");
      [|discriminate].
    reflexivity.
  - intros currency field Habsent. unfold swap_field. rewrite Habsent.
    vm_compute. reflexivity.
Qed.

(** X4. [balance.get(currency, {})] falls back to an empty record only
    when the key is missing: when 'USDT', 'USDC' or 'USD' is present with
    a value that is not a record (a null entry, a bare number), the probe
    ends in its error result and its total reads 0, whatever the other
    entries hold. *)
Theorem swap_entry_not_a_record (ex : exchange) (s : state) (b : dict) (currency : string) :
  fetch_balance ex "swap" None = Ok (VDict b) ->
  In currency stablecoins ->
  is_record (swap_entry b currency) = false ->
  exists e r,
    fst (test_swap_balance float_of_str ex s) = Ok r /\
    r = SwapErr (exn_str e) /\ swap_total r = 0%float.
Proof.
  intros Hfetch Hin Hnot.
  rewrite test_swap_balance_result. unfold swap_outcome.
  rewrite Hfetch. simpl.
  assert (Hraise : forall field,
             attr_num_field float_of_str (swap_entry b currency) field =
             Raise AttributeError).
  { intros field. destruct (swap_entry b currency); try reflexivity.
    discriminate. }
  unfold swap_fields.
  destruct (attr_num_field float_of_str (swap_entry b "USDT") "total") eqn:E1;
    simpl; [|eexists; eexists; repeat split].
  destruct (attr_num_field float_of_str (swap_entry b "USDT") "free") eqn:E2;
    simpl; [|eexists; eexists; repeat split].
  destruct (attr_num_field float_of_str (swap_entry b "USDT") "used") eqn:E3;
    simpl; [|eexists; eexists; repeat split].
  destruct (attr_num_field float_of_str (swap_entry b "USDC") "total") eqn:E4;
    simpl; [|eexists; eexists; repeat split].
  destruct (attr_num_field float_of_str (swap_entry b "USD") "total") eqn:E5;
    simpl; [|eexists; eexists; repeat split].
  exfalso.
  destruct Hin as [<-|[<-|[<-|[]]]]; rewrite Hraise in *; discriminate.
Qed.

(** X5. The swap probe reads the response through its 'USDT', 'USDC'
    and 'USD' entries only: two responses that agree on these three give
    the same total, and the same four amounts or the same error. *)
Theorem swap_reads_three_entries (ex ex' : exchange) (s s' : state) (b b' : dict) :
  fetch_balance ex "swap" None = Ok (VDict b) ->
  fetch_balance ex' "swap" None = Ok (VDict b') ->
  (forall currency, In currency stablecoins ->
                    swap_entry b currency = swap_entry b' currency) ->
  exists r r',
    fst (test_swap_balance float_of_str ex s) = Ok r /\
    fst (test_swap_balance float_of_str ex' s') = Ok r' /\
    swap_total r = swap_total r' /\
    match r, r' with
    | SwapOk usdt_total usdt_free usdc_total total _,
      SwapOk usdt_total' usdt_free' usdc_total' total' _ =>
        usdt_total = usdt_total' /\ usdt_free = usdt_free' /\
        usdc_total = usdc_total' /\ total = total'
    | SwapErr error, SwapErr error' => error = error'
    | _, _ => False
    end.
Proof.
  intros Hfetch Hfetch' Hsame.
  rewrite !test_swap_balance_result. unfold swap_outcome.
  rewrite Hfetch, Hfetch'. simpl.
  rewrite <- (Hsame "USDT"), <- (Hsame "USDC"), <- (Hsame "USD")
    by (simpl; tauto).
  destruct (swap_fields (swap_entry b "USDT") (swap_entry b "USDC")
              (swap_entry b "USD")) as [[[[[ut uf] uu] uc] ud]|e]; simpl.
  - eexists. eexists. repeat split.
  - eexists. eexists. repeat split.
Qed.

End Swap.

(** ** Examples of swap responses *)

Definition swap_only (balance : res pyval) : exchange :=
  table_exchange (fun _ => balance) unavailable unavailable (fun _ => unavailable).

Definition two_coin_swap : dict :=
  [("USDT", holding (VFloat 700) (VFloat 650) (VFloat 50));
   ("USDC", VDict [("total", VStr "2.5")]);
   ("BTC", holding (VFloat 1) (VFloat 1) (VFloat 0))].

Definition null_usdt_swap : dict :=
  [("USDT", VNone);
   ("USDC", holding (VFloat 500) (VFloat 500) (VFloat 0))].

Lemma swap_total_rule_witness :
  fst (test_swap_balance sample_float_of_str
         (swap_only (Ok (VDict two_coin_swap))) initial_state) =
  Ok (SwapOk 700 650 2.5 702.5 (VDict two_coin_swap)).
Proof.
  destruct (swap_total_rule sample_float_of_str
              (swap_only (Ok (VDict two_coin_swap))) initial_state two_coin_swap)
    as [Hrun _].
  - reflexivity.
  - vm_compute. reflexivity.
  - exact Hrun.
Defined.

Lemma swap_entry_not_a_record_witness :
  exists e r,
    fst (test_swap_balance sample_float_of_str
           (swap_only (Ok (VDict null_usdt_swap))) initial_state) = Ok r /\
    r = SwapErr (exn_str e) /\ swap_total r = 0%float.
Proof.
  apply (swap_entry_not_a_record sample_float_of_str
           (swap_only (Ok (VDict null_usdt_swap))) initial_state
           null_usdt_swap "USDT").
  - reflexivity.
  - left. reflexivity.
  - reflexivity.
Defined.

Lemma swap_reads_three_entries_witness :
  exists r r',
    fst (test_swap_balance sample_float_of_str
           (swap_only (Ok (VDict two_coin_swap))) initial_state) = Ok r /\
    fst (test_swap_balance sample_float_of_str
           (swap_only (Ok (VDict (("ETH", VNone) :: two_coin_swap))))
           initial_state) = Ok r' /\
    swap_total r = swap_total r'.
Proof.
  destruct (swap_reads_three_entries sample_float_of_str
              (swap_only (Ok (VDict two_coin_swap)))
              (swap_only (Ok (VDict (("ETH", VNone) :: two_coin_swap))))
              initial_state initial_state
              two_coin_swap (("ETH", VNone) :: two_coin_swap))
    as (r & r' & H1 & H2 & H3 & _).
  - reflexivity.
  - reflexivity.
  - intros currency [<-|[<-|[<-|[]]]]; reflexivity.
  - exists r, r'. repeat split; assumption.
Defined.

(* ================================================================== *)
(** * Further properties of the positions probe *)
(* ================================================================== *)

Section PositionRows.

#[local] Arguments num_field : simpl never.
#[local] Arguments py_format : simpl never.

Variable float_of_str : string -> option float.

Lemma is_open_size_ok d :
  is_open float_of_str (VDict d) = Ok true ->
  is_ok (num_field float_of_str d "contracts") = true.
Proof.
  unfold is_open.
  destruct (truthy (dict_get d "contracts" (VInt 0))) eqn:Ht; [|discriminate].
  rewrite (num_field_truthy float_of_str _ _ Ht).
  destruct (py_float float_of_str (dict_get d "contracts" (VInt 0)));
    [reflexivity | discriminate].
Qed.

Lemma open_positions_of_size_ok ps :
  forall ds,
    open_positions_of float_of_str ps = Ok ds ->
    Forall (fun d => is_ok (num_field float_of_str d "contracts") = true) ds.
Proof.
  induction ps as [|p ps IH]; intros ds Hopen; simpl in Hopen.
  - inversion Hopen; subst. constructor.
  - destruct (is_open float_of_str p) as [keep|] eqn:Hp; [|discriminate].
    simpl in Hopen.
    destruct (open_positions_of float_of_str ps) as [rest|]; [|discriminate].
    simpl in Hopen. inversion Hopen; subst. specialize (IH rest eq_refl).
    destruct p as [| | | | |l|d]; try exact IH.
    destruct keep; [|exact IH].
    constructor; [apply is_open_size_ok; exact Hp | exact IH].
Qed.

Lemma positions_loop_raises ds :
  Forall (fun d => is_ok (num_field float_of_str d "contracts") = true) ds ->
  existsb (fun d => negb (row_ok float_of_str d)) ds = true ->
  forall total_unrealized_pnl total_notional s,
  exists e s',
    positions_loop float_of_str ds total_unrealized_pnl total_notional s =
    (Raise e, s').
Proof.
  induction ds as [|d ds IH]; intros Hsize Hbad pnl0 notional0 s;
    [discriminate|].
  inversion Hsize as [|? ? Hd Hds]; subst.
  cbn [positions_loop].
  unfold bind at 1, lift at 1.
  destruct (num_field float_of_str d "contracts"); [|discriminate].
  unfold bind at 1, lift at 1.
  destruct (num_field float_of_str d "entryPrice") eqn:E1;
    [|eexists; eexists; reflexivity].
  unfold bind at 1, lift at 1.
  destruct (num_field float_of_str d "markPrice") eqn:E2;
    [|eexists; eexists; reflexivity].
  unfold bind at 1, lift at 1.
  destruct (num_field float_of_str d "unrealizedPnl") eqn:E3;
    [|eexists; eexists; reflexivity].
  unfold bind at 1, lift at 1.
  destruct (num_field float_of_str d "notional") eqn:E4;
    [|eexists; eexists; reflexivity].
  unfold bind at 1, lift at 1.
  destruct (py_format (dict_get d "symbol" (VStr "Unknown")) aligned) eqn:E5;
    [|eexists; eexists; reflexivity].
  unfold bind at 1, lift at 1.
  destruct (py_format (dict_get d "side" (VStr "Unknown")) aligned) eqn:E6;
    [|eexists; eexists; reflexivity].
  unfold bind at 1, print at 1.
  simpl in Hbad. unfold row_ok in Hbad at 1.
  rewrite E1, E2, E3, E4, E5, E6 in Hbad. simpl in Hbad.
  apply IH; assumption.
Qed.

#[local] Arguments positions_loop : simpl never.

(** X6. The rows are printed inside the [try], with the symbol and the
    side aligned by a format specification. When a retained position has
    a field that cannot be coerced, or a symbol or side that cannot be
    aligned (a null side, for one), the probe ends in its error result:
    no position is returned and the unrealized PnL reads 0, whatever the
    other positions hold. *)
Theorem position_row_failure (ex : exchange) (s : state) (ps : list pyval) (ds : list dict) :
  fetch_positions ex "swap" = Ok (VList ps) ->
  open_positions_of float_of_str ps = Ok ds ->
  existsb (fun d => negb (row_ok float_of_str d)) ds = true ->
  exists e r,
    fst (test_positions float_of_str ex s) = Ok r /\
    r = PosErr (exn_str e) /\
    positions_open r = [] /\ positions_unrealized_pnl r = 0%float.
Proof.
  intros Hfetch Hopen Hbad.
  pose proof (open_positions_of_size_ok ps ds Hopen) as Hsize.
  unfold test_positions, positions_try, positions_except, try_except,
    print_section, set_default_type, get_default_type.
  unfold bind, lift, print. simpl.
  rewrite Hfetch. simpl. rewrite Hopen.
  destruct ds as [|d ds]; [discriminate|].
  match goal with
  | |- context [positions_loop float_of_str (d :: ds) ?p ?n ?s0] =>
      destruct (positions_loop_raises (d :: ds) Hsize Hbad p n s0)
        as (e & s' & ->)
  end.
  exists e. eexists. repeat split.
Qed.

Lemma open_positions_of_skip p ps1 ps2 :
  is_open float_of_str p = Ok false ->
  open_positions_of float_of_str (ps1 ++ p :: ps2) =
  open_positions_of float_of_str (ps1 ++ ps2).
Proof.
  intros Hp. induction ps1 as [|q ps1 IH]; simpl.
  - rewrite Hp. simpl.
    destruct (open_positions_of float_of_str ps2); simpl; [|reflexivity].
    destruct p; reflexivity.
  - rewrite IH. reflexivity.
Qed.

(** X7. A position that the filter leaves out (size zero, null or
    missing) has no influence at all: with or without it in the
    response, the probe returns and prints the same. Its other fields
    are never read. *)
Theorem position_left_out_is_ignored (ex ex' : exchange) (s : state)
        (p : pyval) (ps1 ps2 : list pyval) :
  fetch_positions ex "swap" = Ok (VList (ps1 ++ p :: ps2)) ->
  fetch_positions ex' "swap" = Ok (VList (ps1 ++ ps2)) ->
  is_open float_of_str p = Ok false ->
  test_positions float_of_str ex s = test_positions float_of_str ex' s.
Proof.
  intros Hfetch Hfetch' Hp.
  unfold test_positions, positions_try, try_except,
    print_section, set_default_type, get_default_type.
  unfold bind, lift, print. simpl.
  rewrite Hfetch, Hfetch'. simpl.
  rewrite (open_positions_of_skip p ps1 ps2 Hp). reflexivity.
Qed.

End PositionRows.

(** ** Examples of positions responses *)

Definition no_side_position : pyval :=
  VDict [("symbol", VStr "ETH/USDT:USDT"); ("side", VNone);
         ("contracts", VFloat 1); ("unrealizedPnl", VFloat 40)].

Definition closed_position : pyval :=
  VDict [("symbol", VNone); ("contracts", VInt 0);
         ("notional", VStr "not a number")].

Definition text_notional_position : pyval :=
  VDict [("symbol", VStr "SOL/USDT:USDT"); ("side", VStr "long");
         ("contracts", VFloat 3); ("unrealizedPnl", VFloat 7);
         ("notional", VStr "n/a")].

(** C6 as stated fails: an open position of size 1 and unrealized PnL 40
    whose side is null is not retained, and neither is an open position
    of size 3 whose notional is a text that is no number; in both cases
    the probe returns its error result, with no position and an
    unrealized PnL that reads 0. *)
Lemma open_position_outside_contract_is_lost :
  is_open sample_float_of_str no_side_position = Ok true /\
  fst (test_positions sample_float_of_str
         (positions_only (Ok (VList [no_side_position]))) initial_state) =
  Ok (PosErr "TypeError") /\
  is_open sample_float_of_str text_notional_position = Ok true /\
  fst (test_positions sample_float_of_str
         (positions_only (Ok (VList [text_notional_position]))) initial_state) =
  Ok (PosErr "ValueError") /\
  positions_open (PosErr "TypeError") = [] /\
  positions_unrealized_pnl (PosErr "TypeError") = 0%float.
Proof. repeat split; vm_compute; reflexivity. Qed.

Lemma position_row_failure_witness :
  exists e r,
    fst (test_positions sample_float_of_str
           (positions_only (Ok (VList (sample_positions ++ [no_side_position]))))
           initial_state) = Ok r /\
    r = PosErr (exn_str e) /\
    positions_open r = [] /\ positions_unrealized_pnl r = 0%float.
Proof.
  apply (position_row_failure sample_float_of_str
           (positions_only (Ok (VList (sample_positions ++ [no_side_position]))))
           initial_state (sample_positions ++ [no_side_position])
           (retained sample_float_of_str (sample_positions ++ [no_side_position]))).
  - reflexivity.
  - vm_compute. reflexivity.
  - vm_compute. reflexivity.
Defined.

Lemma position_left_out_is_ignored_witness :
  test_positions sample_float_of_str
    (positions_only (Ok (VList (closed_position :: sample_positions))))
    initial_state =
  test_positions sample_float_of_str
    (positions_only (Ok (VList sample_positions))) initial_state.
Proof.
  apply (position_left_out_is_ignored sample_float_of_str
           (positions_only (Ok (VList (closed_position :: sample_positions))))
           (positions_only (Ok (VList sample_positions)))
           initial_state closed_position [] sample_positions).
  - reflexivity.
  - reflexivity.
  - reflexivity.
Defined.

Example null_side_loses_all_positions :
  fst (test_positions sample_float_of_str
         (positions_only (Ok (VList (sample_positions ++ [no_side_position]))))
         initial_state) =
  Ok (PosErr "TypeError").
Proof. vm_compute. reflexivity. Qed.

(* ================================================================== *)
(** * Sets of strings: market types and traded symbols *)
(* ================================================================== *)

Lemma str_in_In k keys : str_in k keys = true <-> In k keys.
Proof.
  unfold str_in. rewrite existsb_exists. split.
  - intros (x & Hx & Heq). apply String.eqb_eq in Heq. subst. exact Hx.
  - intros Hin. exists k. split; [exact Hin | apply String.eqb_refl].
Qed.

Lemma set_add_In x y s : In x (set_add y s) <-> x = y \/ In x s.
Proof.
  unfold set_add. destruct (str_in y s) eqn:E.
  - apply str_in_In in E. split; [tauto|]. intros [->|H]; assumption.
  - rewrite in_app_iff. simpl. split; [intros [H|[H|[]]]; auto | intros [H|H]; auto].
Qed.

Lemma set_add_NoDup y s : NoDup s -> NoDup (set_add y s).
Proof.
  intros Hs. unfold set_add. destruct (str_in y s) eqn:E; [exact Hs|].
  apply NoDup_app; [exact Hs | constructor; [intros [] | constructor] |].
  intros x Hx [<-|[]]. apply str_in_In in Hx. congruence.
Qed.

(** A market has the capability [flag] set. *)
Definition has_flag (market : dict) (flag : string) : Prop :=
  truthy (dict_get market flag VNone) = true.

Lemma add_flags_spec market flags :
  forall acc,
    NoDup acc ->
    NoDup (fold_left
             (fun acc flag => if truthy (dict_get market (fst flag) VNone)
                              then set_add (snd flag) acc else acc)
             flags acc) /\
    forall tag,
      In tag (fold_left
                (fun acc flag => if truthy (dict_get market (fst flag) VNone)
                                 then set_add (snd flag) acc else acc)
                flags acc) <->
      In tag acc \/ exists flag, In (flag, tag) flags /\ has_flag market flag.
Proof.
  unfold has_flag.
  induction flags as [|[flag tag0] flags IH]; intros acc Hacc; simpl.
  - split; [exact Hacc|]. intros tag. split; [tauto|].
    intros [H|(flag & [] & _)]. exact H.
  - destruct (truthy (dict_get market flag VNone)) eqn:E.
    + destruct (IH (set_add tag0 acc) (set_add_NoDup tag0 acc Hacc)) as [Hnd Hin].
      split; [exact Hnd|]. intros tag. rewrite Hin, set_add_In. split.
      * intros [[->|H]|(f & Hf & Ht)].
        -- right. exists flag. split; [left; reflexivity | exact E].
        -- left. exact H.
        -- right. exists f. split; [right; exact Hf | exact Ht].
      * intros [H|(f & [Heq|Hf] & Ht)].
        -- left. right. exact H.
        -- inversion Heq; subst. left. left. reflexivity.
        -- right. exists f. split; assumption.
    + destruct (IH acc Hacc) as [Hnd Hin].
      split; [exact Hnd|]. intros tag. rewrite Hin. split.
      * intros [H|(f & Hf & Ht)]; [left; exact H|].
        right. exists f. split; [right; exact Hf | exact Ht].
      * intros [H|(f & [Heq|Hf] & Ht)]; [left; exact H | |].
        -- inversion Heq; subst. congruence.
        -- right. exists f. split; assumption.
Qed.

Lemma add_markets_spec markets :
  forall acc,
    NoDup acc ->
    NoDup (fold_left add_market markets acc) /\
    forall tag,
      In tag (fold_left add_market markets acc) <->
      In tag acc \/
      exists market flag,
        In market markets /\ In (flag, tag) market_flags /\ has_flag market flag.
Proof.
  induction markets as [|market markets IH]; intros acc Hacc; simpl.
  - split; [exact Hacc|]. intros tag. split; [tauto|].
    intros [H|(m & f & [] & _)]. exact H.
  - destruct (add_flags_spec market market_flags acc Hacc) as [Hnd Hin].
    fold (add_market acc market) in Hnd, Hin.
    destruct (IH (add_market acc market) Hnd) as [Hnd' Hin'].
    split; [exact Hnd'|]. intros tag. rewrite Hin', Hin. split.
    + intros [[H|(f & Hf & Ht)]|(m & f & Hm & Hf & Ht)].
      * left. exact H.
      * right. exists market, f. repeat split; auto.
      * right. exists m, f. repeat split; auto.
    + intros [H|(m & f & [<-|Hm] & Hf & Ht)].
      * left. left. exact H.
      * left. right. exists f. split; assumption.
      * right. exists m, f. repeat split; assumption.
Qed.

Section Sets.

Variable set_iter : list string -> list string.

(** X8. When the markets load, the probe returns each market type once,
    and a type is returned exactly when some market has the matching
    capability flag set ('option' gives the type 'options'); this holds
    for any order in which the set yields its elements. When loading
    raises, it returns the empty list. *)
Theorem market_types_detected (ex : exchange) (s : state) :
  (forall l, Permutation (set_iter l) l) ->
  (forall markets,
      load_markets ex (default_type s) = Ok markets ->
      exists types,
        fst (test_market_types set_iter ex s) = Ok types /\
        NoDup types /\
        forall tag,
          In tag types <->
          exists market flag,
            In market markets /\ In (flag, tag) market_flags /\
            has_flag market flag) /\
  (forall e,
      load_markets ex (default_type s) = Raise e ->
      fst (test_market_types set_iter ex s) = Ok []).
Proof.
  intros Hperm. split.
  - intros markets Hload.
    destruct (add_markets_spec markets [] (NoDup_nil _)) as [Hnd Hin].
    exists (set_iter (fold_left add_market markets [])).
    split; [|split].
    + unfold test_market_types, print_section, try_except, get_default_type.
      unfold bind, lift, print, ret. simpl. rewrite Hload. reflexivity.
    + eapply Permutation_NoDup; [apply Permutation_sym, Hperm | exact Hnd].
    + intros tag. split.
      * intros H. eapply Permutation_in in H; [|apply Hperm].
        apply Hin in H. destruct H as [[]|H]. exact H.
      * intros H. eapply Permutation_in; [apply Permutation_sym, Hperm|].
        apply Hin. right. exact H.
  - intros e Hload.
    unfold test_market_types, print_section, try_except, get_default_type.
    unfold bind, lift, print, ret. simpl. rewrite Hload. reflexivity.
Qed.

End Sets.

(** X9. The symbols taken from the closed orders form a set: each
    symbol appears once, and a symbol is in it exactly when some closed
    order carries it and it is not the empty string. Orders without a
    symbol add nothing. *)
Theorem symbols_of_closed_orders (closed_orders : list (option string)) :
  NoDup (symbols_of closed_orders) /\
  forall symbol,
    In symbol (symbols_of closed_orders) <->
    In (Some symbol) closed_orders /\ symbol <> "".
Proof.
  unfold symbols_of.
  assert (H : forall acc,
             NoDup acc ->
             NoDup (fold_left
                      (fun acc order =>
                         match order with
                         | Some symbol => if String.eqb symbol "" then acc
                                          else set_add symbol acc
                         | None => acc
                         end) closed_orders acc) /\
             forall symbol,
               In symbol (fold_left
                            (fun acc order =>
                               match order with
                               | Some symbol => if String.eqb symbol "" then acc
                                                else set_add symbol acc
                               | None => acc
                               end) closed_orders acc) <->
               In symbol acc \/ (In (Some symbol) closed_orders /\ symbol <> "")).
  { induction closed_orders as [|order rest IH]; intros acc Hacc; simpl.
    - split; [exact Hacc|]. intros symbol. tauto.
    - destruct order as [sym|].
      + destruct (String.eqb sym "") eqn:E.
        * apply String.eqb_eq in E. subst sym.
          destruct (IH acc Hacc) as [Hnd Hin]. split; [exact Hnd|].
          intros symbol. rewrite Hin. split.
          -- intros [H|[H1 H2]]; [left; exact H | right; split; [right; exact H1 | exact H2]].
          -- intros [H|[[H1|H1] H2]]; [left; exact H | | right; split; assumption].
             inversion H1; subst. congruence.
        * apply String.eqb_neq in E.
          destruct (IH (set_add sym acc) (set_add_NoDup sym acc Hacc)) as [Hnd Hin].
          split; [exact Hnd|].
          intros symbol. rewrite Hin, set_add_In. split.
          -- intros [[->|H]|[H1 H2]].
             ++ right. split; [left; reflexivity | exact E].
             ++ left. exact H.
             ++ right. split; [right; exact H1 | exact H2].
          -- intros [H|[[H1|H1] H2]].
             ++ left. right. exact H.
             ++ inversion H1; subst. left. left. reflexivity.
             ++ right. split; assumption.
      + destruct (IH acc Hacc) as [Hnd Hin]. split; [exact Hnd|].
        intros symbol. rewrite Hin. split.
        * intros [H|[H1 H2]]; [left; exact H | right; split; [right; exact H1 | exact H2]].
        * intros [H|[[H1|H1] H2]]; [left; exact H | discriminate | right; split; assumption]. }
  destruct (H [] (NoDup_nil _)) as [Hnd Hin].
  split; [exact Hnd|]. intros symbol. rewrite Hin. simpl. tauto.
Qed.

(** ** An example of markets *)

Definition sample_markets : list dict :=
  [[("symbol", VStr "BTC/USDT"); ("spot", VBool true); ("swap", VBool false)];
   [("symbol", VStr "BTC/USDT:USDT"); ("swap", VBool true); ("option", VInt 1);
    ("future", VNone)];
   [("symbol", VStr "ETH/USDT"); ("spot", VBool true)]].

Definition markets_only (markets : res (list dict)) : exchange :=
  {| fetch_balance := fun _ _ => unavailable;
     fetch_positions := fun _ => unavailable;
     fetch_closed_orders := fun _ _ => unavailable;
     fetch_my_trades := fun _ _ _ => unavailable;
     load_markets := fun _ => markets |}.

Lemma market_types_detected_witness :
  (exists types,
      fst (test_market_types (fun l => l) (markets_only (Ok sample_markets))
                             initial_state) = Ok types /\
      NoDup types /\
      forall tag,
        In tag types <->
        exists market flag,
          In market sample_markets /\ In (flag, tag) market_flags /\
          has_flag market flag) /\
  fst (test_market_types (fun l => l) (markets_only unavailable) initial_state) =
  Ok [].
Proof.
  destruct (market_types_detected (fun l => l) (markets_only (Ok sample_markets))
              initial_state (fun l => Permutation_refl l)) as [Hok _].
  destruct (market_types_detected (fun l => l) (markets_only unavailable)
              initial_state (fun l => Permutation_refl l)) as [_ Hfail].
  split.
  - apply Hok. reflexivity.
  - apply (Hfail (ExchangeError "NetworkError")). reflexivity.
Defined.

Example market_types_sample :
  fst (test_market_types (fun l => l) (markets_only (Ok sample_markets))
                         initial_state) =
  Ok ["spot"; "swap"; "options"].
Proof. vm_compute. reflexivity. Qed.

(* ================================================================== *)
(** * How the run of [main] ends *)
(* ================================================================== *)

Lemma forallb_false_existsb {A} (p : A -> bool) (l : list A) :
  forallb p l = false -> existsb (fun x => negb (p x)) l = true.
Proof.
  induction l as [|x l IH]; simpl; [discriminate|].
  destruct (p x); simpl; [exact IH | reflexivity].
Qed.

Lemma terms_raises f ts :
  existsb (fun t => negb (is_ok (f t))) ts = true ->
  exists e, terms f ts = Raise e.
Proof.
  induction ts as [|t ts IH]; simpl; [discriminate|].
  destruct (f t) as [x|e]; simpl; [|intros _; exists e; reflexivity].
  intros Hbad. destruct (IH Hbad) as (e & ->). exists e. reflexivity.
Qed.

(** A computation whose outcome leaves the mode as it found it. *)
Definition keeps_mode {A} (m : M A) : Prop :=
  forall s, default_type (snd (m s)) = default_type s.

Lemma keeps_mode_ret {A} (a : A) : keeps_mode (ret a).
Proof. intros s. reflexivity. Qed.

Lemma keeps_mode_lift {A} (r : res A) : keeps_mode (lift r).
Proof. intros s. reflexivity. Qed.

Lemma keeps_mode_print l : keeps_mode (print l).
Proof. intros s. reflexivity. Qed.

Lemma keeps_mode_get : keeps_mode get_default_type.
Proof. intros s. reflexivity. Qed.

Lemma keeps_mode_bind {A B} (m : M A) (k : A -> M B) :
  keeps_mode m -> (forall a, keeps_mode (k a)) -> keeps_mode (bind m k).
Proof.
  intros Hm Hk s. unfold bind. specialize (Hm s).
  destruct (m s) as [[a|e] s1]; simpl in *; [|exact Hm].
  rewrite Hk. exact Hm.
Qed.

Lemma keeps_mode_try_except {A} (body : M A) (handler : exn -> M A) :
  keeps_mode body -> (forall e, keeps_mode (handler e)) ->
  keeps_mode (try_except body handler).
Proof.
  intros Hbody Hhandler s. unfold try_except. specialize (Hbody s).
  destruct (body s) as [[a|e] s1]; simpl in *; [exact Hbody|].
  rewrite Hhandler. exact Hbody.
Qed.

Ltac keeps_mode_step :=
  first
    [ apply keeps_mode_ret
    | apply keeps_mode_lift
    | apply keeps_mode_print
    | apply keeps_mode_get
    | apply keeps_mode_bind; [|intros]
    | apply keeps_mode_try_except; [|intros]
    | match goal with
      | |- keeps_mode (let '(_, _) := ?p in _) => destruct p
      | |- keeps_mode (match ?x with _ => _ end) => destruct x
      end ].

Section Outcome.

#[local] Arguments num_field : simpl never.

Variable float_of_str : string -> option float.
Variable set_iter : list string -> list string.
Variable py_sum : list float -> float.

Lemma aggregate_raises all_trades :
  existsb (fun t => negb (fill_ok float_of_str t)) all_trades = true ->
  exists e, aggregate float_of_str py_sum all_trades = Raise e.
Proof.
  intros Hbad. unfold aggregate, sum_over.
  destruct (forallb (fun t => is_ok (trade_cost float_of_str t)) all_trades) eqn:Hcost.
  - rewrite (terms_spec _ _ Hcost). simpl.
    assert (Hfee : existsb (fun t => negb (is_ok (trade_fee float_of_str t)))
                           all_trades = true).
    { apply existsb_exists in Hbad. destruct Hbad as (t & Ht & Hnot).
      apply existsb_exists. exists t. split; [exact Ht|].
      rewrite forallb_forall in Hcost. specialize (Hcost t Ht).
      unfold fill_ok in Hnot. rewrite Hcost in Hnot. exact Hnot. }
    destruct (terms_raises _ _ Hfee) as (e & ->). exists e. reflexivity.
  - apply forallb_false_existsb in Hcost.
    destruct (terms_raises _ _ Hcost) as (e & ->). exists e. reflexivity.
Qed.

Lemma returns_test_market_types ex : returns (test_market_types set_iter ex).
Proof.
  unfold test_market_types, print_section.
  apply returns_bind; [apply returns_print | intros _].
  apply returns_try_except. intros e.
  apply returns_bind; [apply returns_print | intros _; apply returns_ret].
Qed.

Lemma test_funding_balance_result ex s :
  fst (test_funding_balance float_of_str ex s) =
  Ok (first_positive (positive_usdt float_of_str ex (default_type s)) funding_types).
Proof.
  unfold test_funding_balance, print_section.
  unfold bind at 1, print at 1.
  destruct (funding_loop_spec float_of_str ex funding_types
              {| default_type := default_type s;
                 out := out s ++ [Header "FUNDING/EARN BALANCE"] |})
    as (lines & ->).
  reflexivity.
Qed.

Lemma returns_test_funding_balance ex : returns (test_funding_balance float_of_str ex).
Proof. intros s. eexists. apply test_funding_balance_result. Qed.

(** The fills the trades probe gathers in a run of [main] at time [now]. *)
Definition fills_gathered (ex : exchange) (now : Z) : list pyval :=
  let since := (now - 7 * 86400000)%Z in
  flat_map (fills_of ex "swap" since) (set_iter (discovered ex since)).

Lemma main_result ex now s :
  fst (main float_of_str set_iter py_sum ex now s) =
  match aggregate float_of_str py_sum (fills_gathered ex now) with
  | Ok _ => Raise ValueError
  | Raise e => Raise e
  end.
Proof.
  unfold main.
  unfold bind at 1, print at 1. unfold bind at 1, print at 1.
  unfold bind at 1.
  match goal with
  | |- context [test_market_types set_iter ex ?s0] =>
      destruct (returns_test_market_types ex s0) as (a0 & H0);
      destruct (test_market_types set_iter ex s0) as [[market_types|e0] s1];
      simpl in H0; [clear H0 | discriminate]
  end.
  unfold bind at 1.
  destruct (returns_test_spot_balance float_of_str ex s1) as (a1 & H1).
  destruct (test_spot_balance float_of_str ex s1) as [[spot_result|e1] s2];
    simpl in H1; [clear H1 | discriminate].
  unfold bind at 1.
  destruct (returns_test_swap_balance float_of_str ex s2) as (a2 & H2).
  destruct (test_swap_balance float_of_str ex s2) as [[swap_result|e2] s3];
    simpl in H2; [clear H2 | discriminate].
  unfold bind at 1.
  destruct (returns_test_positions float_of_str ex s3) as (a3 & H3).
  destruct (test_positions float_of_str ex s3) as [[positions_result|e3] s4];
    simpl in H3; [clear H3 | discriminate].
  unfold bind at 1.
  destruct (returns_test_funding_balance ex s4) as (a4 & H4).
  destruct (test_funding_balance float_of_str ex s4) as [[funding_result|e4] s5];
    simpl in H4; [clear H4 | discriminate].
  unfold bind at 1.
  pose proof (test_recent_trades_run float_of_str set_iter py_sum ex now 7 s5) as H5.
  cbv zeta in H5. fold (fills_gathered ex now) in H5.
  destruct (test_recent_trades float_of_str set_iter py_sum ex now 7 s5)
    as [[trades_result|e5] s6]; simpl in H5; rewrite <- H5; [|reflexivity].
  unfold bind at 1. rewrite summary_run. reflexivity.
Qed.

(** X10. The sums over the fills are outside any [try]: when a fetched
    fill is not a record, or has a cost, a fee or a fee cost that cannot
    be read (a null fee, for one), the trades probe raises, and so does
    the run of [main], with the same exception and before the summary. *)
Theorem malformed_fill_aborts (ex : exchange) (now : Z) (s s' : state) :
  existsb (fun t => negb (fill_ok float_of_str t)) (fills_gathered ex now) = true ->
  exists e,
    fst (test_recent_trades float_of_str set_iter py_sum ex now 7 s) = Raise e /\
    fst (main float_of_str set_iter py_sum ex now s') = Raise e.
Proof.
  intros Hbad.
  destruct (aggregate_raises _ Hbad) as (e & He).
  exists e. split.
  - pose proof (test_recent_trades_run float_of_str set_iter py_sum ex now 7 s) as H.
    cbv zeta in H. fold (fills_gathered ex now) in H. rewrite H. exact He.
  - rewrite main_result, He. reflexivity.
Qed.

(** X11. The run of [main] ends in exactly one of two ways, decided by
    the fills gathered alone: the exception of the sums over the fills
    when one of them raises, the [ValueError] of the summary otherwise.
    No failure of a balance, positions, funding or market probe ends the
    run, and none prevents the [ValueError]. *)
Theorem main_ends_in (ex : exchange) (now : Z) (s : state) :
  fst (main float_of_str set_iter py_sum ex now s) =
  match aggregate float_of_str py_sum (fills_gathered ex now) with
  | Ok _ => Raise ValueError
  | Raise e => Raise e
  end /\
  (forallb (fill_ok float_of_str) (fills_gathered ex now) = true ->
   fst (main float_of_str set_iter py_sum ex now s) = Raise ValueError).
Proof.
  split; [apply main_result|].
  intros Hok. rewrite main_result. unfold aggregate.
  assert (Hcost : forallb (fun t => is_ok (trade_cost float_of_str t))
                          (fills_gathered ex now) = true).
  { rewrite forallb_forall in *. intros t Ht. specialize (Hok t Ht).
    unfold fill_ok in Hok. apply andb_true_iff in Hok. tauto. }
  assert (Hfee : forallb (fun t => is_ok (trade_fee float_of_str t))
                         (fills_gathered ex now) = true).
  { rewrite forallb_forall in *. intros t Ht. specialize (Hok t Ht).
    unfold fill_ok in Hok. apply andb_true_iff in Hok. tauto. }
  rewrite (sum_over_spec py_sum _ _ Hcost), (sum_over_spec py_sum _ _ Hfee).
  reflexivity.
Qed.

(** X14. When the closed orders cannot be fetched there is no symbol to
    look at: the trades probe returns zero trades, with the sums of no
    term as volume and fees, and raises nothing. *)
Theorem no_closed_orders_no_trades (ex : exchange) (now days : Z) (s : state) (e : exn) :
  set_iter [] = [] ->
  fetch_closed_orders ex "swap" (now - days * 86400000)%Z = Raise e ->
  fst (test_recent_trades float_of_str set_iter py_sum ex now days s) =
  Ok {| trades := 0; volume := py_sum []; fees := py_sum [] |}.
Proof.
  intros Hempty Hfetch.
  pose proof (test_recent_trades_run float_of_str set_iter py_sum ex now days s) as H.
  cbv zeta in H. rewrite H. unfold discovered. rewrite Hfetch, Hempty.
  reflexivity.
Qed.

Lemma keeps_mode_positions_loop ds :
  forall pnl notional, keeps_mode (positions_loop float_of_str ds pnl notional).
Proof.
  induction ds as [|d ds IH]; intros pnl notional; simpl.
  - apply keeps_mode_ret.
  - repeat keeps_mode_step. apply IH.
Qed.

Lemma test_positions_mode ex s :
  default_type (snd (test_positions float_of_str ex s)) = "swap".
Proof.
  unfold test_positions, print_section.
  unfold bind at 1, print at 1. unfold bind at 1, set_default_type at 1.
  match goal with
  | |- default_type (snd (try_except ?body ?handler ?s0)) = _ =>
      assert (H : keeps_mode (try_except body handler))
  end.
  { unfold positions_try, positions_except.
    repeat keeps_mode_step; try apply keeps_mode_positions_loop. }
  rewrite H. reflexivity.
Qed.

(** X12. The funding probe does not set the mode of the client: run
    after the positions probe, as [main] does, its three balance
    requests are made in the mode 'swap' that the positions probe left,
    whatever the mode was before and however the positions probe ended. *)
Theorem funding_runs_in_swap_mode (ex : exchange) (s : state) :
  fst ((test_positions float_of_str ex ;;; test_funding_balance float_of_str ex) s) =
  Ok (first_positive (positive_usdt float_of_str ex "swap") funding_types) /\
  default_type
    (snd ((test_positions float_of_str ex ;;; test_funding_balance float_of_str ex) s)) =
  "swap".
Proof.
  unfold bind.
  pose proof (test_positions_mode ex s) as Hmode.
  destruct (returns_test_positions float_of_str ex s) as (r & Hr).
  destruct (test_positions float_of_str ex s) as [[r0|e] s1];
    simpl in Hr, Hmode; [|discriminate].
  split.
  - rewrite test_funding_balance_result, Hmode. reflexivity.
  - unfold test_funding_balance, print_section.
    unfold bind at 1, print at 1.
    destruct (funding_loop_spec float_of_str ex funding_types
                {| default_type := default_type s1;
                   out := out s1 ++ [Header "FUNDING/EARN BALANCE"] |})
      as (lines & ->).
    simpl. exact Hmode.
Qed.

End Outcome.

(** ** Examples *)

Definition null_fee_fills (symbol : string) : res pyval :=
  if String.eqb symbol "BTC/USDT:USDT" then
    Ok (VList [VDict [("cost", VFloat 100.5); ("fee", VNone)]])
  else Raise (ExchangeError "RequestTimeout").

Definition null_fee_exchange : exchange :=
  table_exchange ordinary_balances (Ok (VList sample_positions))
                 (Ok three_symbols) null_fee_fills.

Lemma malformed_fill_aborts_witness :
  exists e,
    fst (test_recent_trades sample_float_of_str (fun l => l) float_sum
           null_fee_exchange 1700000000000 7 initial_state) = Raise e /\
    fst (main sample_float_of_str (fun l => l) float_sum
           null_fee_exchange 1700000000000 initial_state) = Raise e.
Proof.
  apply (malformed_fill_aborts sample_float_of_str (fun l => l) float_sum
           null_fee_exchange 1700000000000 initial_state initial_state).
  vm_compute. reflexivity.
Defined.

Example null_fee_ends_the_run :
  fst (main sample_float_of_str (fun l => l) float_sum
         null_fee_exchange 1700000000000 initial_state) = Raise AttributeError.
Proof. vm_compute. reflexivity. Qed.

Lemma main_ends_in_witness :
  fst (main sample_float_of_str (fun l => l) float_sum
         ordinary_exchange 1700000000000 initial_state) = Raise ValueError.
Proof.
  apply (main_ends_in sample_float_of_str (fun l => l) float_sum
           ordinary_exchange 1700000000000 initial_state).
  vm_compute. reflexivity.
Defined.

Lemma no_closed_orders_no_trades_witness :
  fst (test_recent_trades sample_float_of_str (fun l => l) float_sum
         (spot_only (Ok (VDict mixed_balance))) 1700000000000 7 initial_state) =
  Ok {| trades := 0; volume := 0; fees := 0 |}.
Proof.
  apply (no_closed_orders_no_trades sample_float_of_str (fun l => l) float_sum
           (spot_only (Ok (VDict mixed_balance))) 1700000000000 7 initial_state
           (ExchangeError "NetworkError")).
  - reflexivity.
  - reflexivity.
Defined.

(* ================================================================== *)
(** * Further properties of the funding probe *)
(* ================================================================== *)

Lemma first_positive_at probe earlier ty later total :
  Forall (fun t => probe t = None) earlier ->
  probe ty = Some total ->
  first_positive probe (earlier ++ ty :: later) = FundFound ty total.
Proof.
  intros Hearlier Hty. induction Hearlier as [|t earlier Ht _ IH]; simpl.
  - rewrite Hty. reflexivity.
  - rewrite Ht. exact IH.
Qed.

Section FundingOrder.

Variable float_of_str : string -> option float.

(** X13. Once an account type has a strictly positive USDT total and no
    type tried before it has one, the probe returns that type and that
    total, whatever the responses for the types after it: a 'funding'
    balance with USDT always wins over 'earn' and 'savings', and an
    unavailable type before the match is passed over. *)
Theorem funding_match_wins (ex : exchange) (s : state)
        (earlier later : list string) (ty : string) (total : float) :
  funding_types = earlier ++ ty :: later ->
  Forall (fun t => positive_usdt float_of_str ex (default_type s) t = None) earlier ->
  positive_usdt float_of_str ex (default_type s) ty = Some total ->
  exists r,
    fst (test_funding_balance float_of_str ex s) = Ok r /\
    r = FundFound ty total /\ funding_total r = total.
Proof.
  intros Htypes Hearlier Hty.
  exists (FundFound ty total). split; [|split; reflexivity].
  rewrite test_funding_balance_result, Htypes.
  rewrite (first_positive_at _ earlier ty later total Hearlier Hty).
  reflexivity.
Qed.

End FundingOrder.

Lemma funding_match_wins_witness :
  exists r,
    fst (test_funding_balance sample_float_of_str
           (table_exchange funding_table unavailable unavailable
                           (fun _ => unavailable))
           initial_state) = Ok r /\
    r = FundFound "earn" 20 /\ funding_total r = 20%float.
Proof.
  apply (funding_match_wins sample_float_of_str
           (table_exchange funding_table unavailable unavailable
                           (fun _ => unavailable))
           initial_state ["funding"] ["savings"] "earn" 20).
  - reflexivity.
  - constructor; [vm_compute; reflexivity | constructor].
  - vm_compute. reflexivity.
Defined.
